(** * Feathery ML: the query pipeline and its history file

    A shallow embedding of the query-to-history path of feathery-ml:
    [ai_engine/code_generator.py], [project_manager/query_manager.py] and
    the interactive loop of [chat_manager/chat_session.py], followed by
    [config_manager/config_handler.py] and the [analyze] command of
    [cli/main.py].

    Python methods become functions in a small state-and-exception monad
    over a [World] that holds the dictionary objects (with their identity),
    the file [qna.json], the clock, the logger and the console. Two
    refinements come after: [Console], the chat loop on a console that
    may refuse a text, and [Sharing], the manager over dictionaries that
    share their values. *)

From Stdlib Require Import Ascii ZArith Lia.
From stdpp Require Import gmap strings list.

Set Warnings "-register-all".
Open Scope nat_scope.

(** ** Python values *)

(** The values that travel through the pipeline: the JSON-shaped ones,
    tuples, and arbitrary objects (a loaded dataset, say), of which only the
    class name and the optional [shape] attribute are ever looked at.
    Dictionaries keep their insertion order, as Python's do. *)
Inductive pyval : Type :=
| PNone
| PBool (b : bool)
| PInt (n : Z)
| PStr (s : string)
| PList (xs : list pyval)
| PTuple (xs : list pyval)
| PDict (kvs : list (string * pyval))
| PObject (cls : string) (shape : option pyval).

(** A dictionary with string keys, in insertion order. *)
Definition dict : Type := list (string * pyval).

(** [d.get(k)] *)
Fixpoint dict_get (d : dict) (k : string) : option pyval :=
  match d with
  | [] => None
  | (k', v) :: d' => if String.eqb k' k then Some v else dict_get d' k
  end.

(** [d[k] = v]: an existing key keeps its position, a new key goes last. *)
Fixpoint dict_set (d : dict) (k : string) (v : pyval) : dict :=
  match d with
  | [] => [(k, v)]
  | (k', v') :: d' =>
      if String.eqb k' k then (k', v) :: d' else (k', v') :: dict_set d' k v
  end.

(** [d.update(other)] *)
Definition dict_update (d other : dict) : dict :=
  fold_left (fun acc kv => dict_set acc (fst kv) (snd kv)) other d.

(** Truth value of an [Optional[Dict]]: [None] and [{}] are false. *)
Definition truthy (o : option dict) : bool :=
  match o with
  | None | Some [] => false
  | Some (_ :: _) => true
  end.

(** [type(v).__name__] *)
Definition type_name (v : pyval) : string :=
  match v with
  | PNone => "NoneType"
  | PBool _ => "bool"
  | PInt _ => "int"
  | PStr _ => "str"
  | PList _ => "list"
  | PTuple _ => "tuple"
  | PDict _ => "dict"
  | PObject cls _ => cls
  end.

(** [getattr(data, "shape", None)]: of the values above only an object can
    carry the attribute. *)
Definition getattr_shape (data : pyval) : pyval :=
  match data with
  | PObject _ (Some s) => s
  | _ => PNone
  end.

(** ** JSON documents *)

Inductive json : Type :=
| JNull
| JBool (b : bool)
| JNum (n : Z)
| JStr (s : string)
| JArr (xs : list json)
| JObj (kvs : list (string * json)).

(** What [json.dumps] makes of a value: a document, or the [TypeError]
    naming the class of the first object it cannot serialise. *)
Inductive dumped (A : Type) : Type :=
| Dumped (a : A)
| NotSerializable (cls : string).
Arguments Dumped {A} a.
Arguments NotSerializable {A} cls.

Definition dumped_map {A B} (f : A -> B) (d : dumped A) : dumped B :=
  match d with
  | Dumped a => Dumped (f a)
  | NotSerializable c => NotSerializable c
  end.

Fixpoint dumps (v : pyval) : dumped json :=
  match v with
  | PNone => Dumped JNull
  | PBool b => Dumped (JBool b)
  | PInt n => Dumped (JNum n)
  | PStr s => Dumped (JStr s)
  | PList xs | PTuple xs =>
      dumped_map JArr
        ((fix items (l : list pyval) : dumped (list json) :=
            match l with
            | [] => Dumped []
            | x :: l' =>
                match dumps x with
                | Dumped j => dumped_map (cons j) (items l')
                | NotSerializable c => NotSerializable c
                end
            end) xs)
  | PDict kvs =>
      dumped_map JObj
        ((fix items (l : list (string * pyval)) : dumped (list (string * json)) :=
            match l with
            | [] => Dumped []
            | (k, x) :: l' =>
                match dumps x with
                | Dumped j => dumped_map (cons (k, j)) (items l')
                | NotSerializable c => NotSerializable c
                end
            end) kvs)
  | PObject cls _ => NotSerializable cls
  end.

(** [json.loads] on a text that decodes to the document [j]. *)
Fixpoint loads (j : json) : pyval :=
  match j with
  | JNull => PNone
  | JBool b => PBool b
  | JNum n => PInt n
  | JStr s => PStr s
  | JArr xs => PList (map loads xs)
  | JObj kvs => PDict (map (fun kv => (fst kv, loads (snd kv))) kvs)
  end.

(** ** Exceptions, the world, and the monad *)

Inductive exn_class : Type :=
| ValueError
| TypeError
| AttributeError
| JSONDecodeError
| CalledProcessError
| MarkupError
| KeyboardInterrupt.

(** A raised exception: its class and [str(e)]. *)
Record exn : Type := Exn { exn_cls : exn_class; exn_str : string }.

(** [except Exception] catches everything here but [KeyboardInterrupt]. *)
Definition is_Exception (e : exn) : bool :=
  match exn_cls e with
  | KeyboardInterrupt => false
  | _ => true
  end.

(** The text of [qna.json], kept as the document it decodes to; a text
    that cannot be decoded keeps only the message of the error, which is
    raised here as the decoder's [JSONDecodeError]. *)
Inductive file_text : Type :=
| Decodes (j : json)
| Malformed (msg : string).

(** What the console shows. *)
Inductive shown : Type :=
| Welcome
| HelpText
| NoHistory
| HistoryTable (entries : list pyval)
| GeneratedCode (code : string)
| Results (value : pyval)
| ErrorLine (msg : string)
| EndingSession
| Goodbye.

Inductive level : Type := INFO | ERROR.

Definition loc : Type := nat.

Record World : Type := mkWorld {
  heap : gmap loc dict;          (* dictionary objects, by identity *)
  qna : option file_text;        (* Path.cwd() / "qna.json"; None: no file *)
  clock : nat -> string;         (* isoformat of the n-th datetime.now() *)
  ticks : nat;                   (* clock readings taken so far *)
  git_error : option string;    (* str of the error git add/commit dies of *)
  commits : list string;         (* commit messages, latest first *)
  log : list (level * string);   (* logger records, latest first *)
  console : list shown           (* console output, latest first *)
}.

Inductive result (A : Type) : Type :=
| Ok (a : A)
| Raise (e : exn).
Arguments Ok {A} a.
Arguments Raise {A} e.

(** A computation reads and changes the world and returns or raises; what
    it changed before raising stays changed. *)
Definition Py (A : Type) : Type := World -> result A * World.

Definition ret {A} (a : A) : Py A := fun w => (Ok a, w).

Definition raise {A} (c : exn_class) (msg : string) : Py A :=
  fun w => (Raise (Exn c msg), w).

Definition reraise {A} (e : exn) : Py A := fun w => (Raise e, w).

Definition bind {A B} (m : Py A) (k : A -> Py B) : Py B :=
  fun w =>
    match m w with
    | (Ok a, w') => k a w'
    | (Raise e, w') => (Raise e, w')
    end.

Notation "x <- m ;; k" := (bind m (fun x => k))
  (at level 100, m at next level, right associativity).
Notation "m ;;; k" := (bind m (fun _ => k))
  (at level 100, right associativity).

(** [try: body / except Exception as e: handler(e)] *)
Definition try_except {A} (body : Py A) (handler : exn -> Py A) : Py A :=
  fun w =>
    match body w with
    | (Ok a, w') => (Ok a, w')
    | (Raise e, w') => if is_Exception e then handler e w' else (Raise e, w')
    end.

(** [logger.error(msg)] and [logger.info(msg)] *)
Definition logger_record (lvl : level) (msg : string) : Py unit :=
  fun w => (Ok tt, mkWorld (heap w) (qna w) (clock w) (ticks w) (git_error w)
                           (commits w) ((lvl, msg) :: log w) (console w)).

Definition logger_error : string -> Py unit := logger_record ERROR.
Definition logger_info : string -> Py unit := logger_record INFO.

(** [console.print(...)] of something that renders. The texts rich may
    refuse are dealt with in [Console] below. *)
Definition console_print (s : shown) : Py unit :=
  fun w => (Ok tt, mkWorld (heap w) (qna w) (clock w) (ticks w) (git_error w)
                           (commits w) (log w) (s :: console w)).

(** [datetime.now().isoformat()] *)
Definition now_isoformat : Py string :=
  fun w => (Ok (clock w (ticks w)),
            mkWorld (heap w) (qna w) (clock w) (S (ticks w)) (git_error w)
                    (commits w) (log w) (console w)).

(** The contents of the dictionary object at [l]. *)
Definition deref (l : loc) : Py dict :=
  fun w => (Ok (default [] (heap w !! l)), w).

(** [obj.update(other)] on the dictionary object at [l], in place. *)
Definition update_at (l : loc) (other : dict) : Py unit :=
  fun w => (Ok tt,
            mkWorld (<[l := dict_update (default [] (heap w !! l)) other]> (heap w))
                    (qna w) (clock w) (ticks w) (git_error w)
                    (commits w) (log w) (console w)).

(** [obj.copy()] and [{}]: a new dictionary object with the contents [d]. *)
Definition alloc (d : dict) : Py loc :=
  fun w => let l := fresh (dom (heap w)) in
           (Ok l, mkWorld (<[l := d]> (heap w)) (qna w) (clock w) (ticks w)
                          (git_error w) (commits w) (log w) (console w)).

(** [qna_file.write_text(text)] *)
Definition write_qna (j : json) : Py unit :=
  fun w => (Ok tt, mkWorld (heap w) (Some (Decodes j)) (clock w) (ticks w)
                           (git_error w) (commits w) (log w) (console w)).

(** [try: body / except Exception as e: logger.error(prefix + str(e)); raise] *)
Definition logged {A} (prefix : string) (body : Py A) : Py A :=
  try_except body (fun e => logger_error (prefix +:+ exn_str e) ;;; reraise e).

(** ** ai_engine/code_generator.py *)

Module CodeGenerator.

(** [AnalysisQuery] *)
Record AnalysisQuery : Type := {
  query_text : string;
  data_info : dict;
  requirements : option dict
}.

(** The generator object: [self.templates]. No method assigns to it. *)
Record t : Type := { templates : dict }.

(** [CodeGenerator()] *)
Definition init : t := {| templates := [] |}.

Definition _load_templates (self : t) : Py dict := ret [].

Definition _process_query (self : t) (query : string) (data : pyval)
  : Py AnalysisQuery :=
  ret {| query_text := query;
         data_info := [("shape", getattr_shape data)];
         requirements := Some [] |}.

Definition validate_code (self : t) (code query : string) : Py bool :=
  try_except
    (ret true)
    (fun e => logger_error ("Code validation failed: " +:+ exn_str e) ;;;
              ret false).

(** [context.get("data") if context else None] *)
Definition context_data (context : option dict) : pyval :=
  match context with
  | Some d => if truthy context then default PNone (dict_get d "data") else PNone
  | None => PNone
  end.

(** [generate] only reads its [context] argument, so it receives the
    dictionary's contents. *)
Definition generate (self : t) (query : string) (context : option dict)
  : Py string :=
  logged "Code generation failed: "
    (analysis_query <- _process_query self query (context_data context) ;;
     let code := query +:+ String "010" "# TODO: Implement analysis" in
     ok <- validate_code self code query ;;
     if negb ok then raise ValueError "Generated code validation failed"
     else ret code).

End CodeGenerator.

(** ** project_manager/query_manager.py *)

Module QueryResult.

(** [context] is a reference to a dictionary object, or [None]. *)
Record t : Type := {
  query : string;
  code : string;
  result : pyval;
  timestamp : string;
  context : option loc
}.

End QueryResult.

Module QueryManager.

(** The manager object; [self.context] is a dictionary object that
    [process_query] updates in place. ([self.data_processor] is built but
    never used on this path.) The values of a dictionary are kept as their
    trees, which is right as long as no value inside a dictionary is itself
    changed in place; [Sharing] below lifts that restriction. *)
Record t : Type := {
  code_generator : CodeGenerator.t;
  context : loc
}.

(** [QueryManager()] *)
Definition init : Py t :=
  l <- alloc [] ;;
  ret {| code_generator := CodeGenerator.init; context := l |}.

Definition _execute_analysis (self : t) (code : string) : Py pyval :=
  ret (PStr "Analysis results placeholder").

Definition _create_result (self : t) (query code : string) (result : pyval)
  : Py QueryResult.t :=
  ts <- now_isoformat ;;
  d <- deref (context self) ;;
  l <- alloc d ;;
  ret {| QueryResult.query := query;
         QueryResult.code := code;
         QueryResult.result := result;
         QueryResult.timestamp := ts;
         QueryResult.context := Some l |}.

(** [json.loads(qna_file.read_text())] if the file exists, else [[]] *)
Definition load_history : Py pyval :=
  fun w =>
    match qna w with
    | Some (Decodes j) => (Ok (loads j), w)
    | Some (Malformed msg) => (Raise (Exn JSONDecodeError msg), w)
    | None => (Ok (PList []), w)
    end.

Definition no_attribute {A} (v : pyval) (attr : string) : Py A :=
  raise AttributeError
    ("'" +:+ type_name v +:+ "' object has no attribute '" +:+ attr +:+ "'").

(** [history.append(x)] *)
Definition append (history x : pyval) : Py pyval :=
  match history with
  | PList xs => ret (PList (xs ++ [x]))
  | _ => no_attribute history "append"
  end.

(** [history.extend(xs)] *)
Definition extend (history : pyval) (xs : list pyval) : Py pyval :=
  match history with
  | PList ys => ret (PList (ys ++ xs))
  | _ => no_attribute history "extend"
  end.

(** [qna_file.write_text(json.dumps(history, indent=2))] *)
Definition save_history (history : pyval) : Py unit :=
  match dumps history with
  | Dumped j => write_qna j
  | NotSerializable cls =>
      raise TypeError ("Object of type " +:+ cls +:+ " is not JSON serializable")
  end.

(** The value of [result.context]. *)
Definition context_value (c : option loc) : Py pyval :=
  match c with
  | Some l => d <- deref l ;; ret (PDict d)
  | None => ret PNone
  end.

Definition _update_history (self : t) (result : QueryResult.t) : Py unit :=
  logged "History update failed: "
    (history <- load_history ;;
     ctx <- context_value (QueryResult.context result) ;;
     history <- append history
       (PDict [("query", PStr (QueryResult.query result));
               ("code", PStr (QueryResult.code result));
               ("timestamp", PStr (QueryResult.timestamp result));
               ("context", ctx)]) ;;
     save_history history).

Definition bulk_update_history (self : t) (entries : list pyval) : Py unit :=
  logged "Bulk history update failed: "
    (history <- load_history ;;
     history <- extend history entries ;;
     save_history history).

Definition process_query (self : t) (query : string) (context : option dict)
  : Py QueryResult.t :=
  logged "Query processing failed: "
    ((if truthy context then update_at (QueryManager.context self) (default [] context)
      else ret tt) ;;;
     ctx <- deref (QueryManager.context self) ;;
     code <- CodeGenerator.generate (code_generator self) query (Some ctx) ;;
     result <- _execute_analysis self code ;;
     query_result <- _create_result self query code result ;;
     _update_history self query_result ;;;
     ret query_result).

End QueryManager.

(** ** git_manager/git_controller.py *)

Module GitController.

(** [subprocess.run(["git", "add", "."], check=True)] and then
    [subprocess.run(["git", "commit", "-m", msg], check=True)] *)
Definition run_git_commit (msg : string) : Py unit :=
  fun w =>
    match git_error w with
    | None => (Ok tt, mkWorld (heap w) (qna w) (clock w) (ticks w) (git_error w)
                              (msg :: commits w) (log w) (console w))
    | Some err => (Raise (Exn CalledProcessError err), w)
    end.

(** [message or "Update: Analysis results"] *)
Definition commit_message (message : option string) : string :=
  match message with
  | None | Some EmptyString => "Update: Analysis results"
  | Some m => m
  end.

Definition commit_changes (message : option string) : Py unit :=
  logged "Git commit failed: "
    (let msg := commit_message message in
     run_git_commit msg ;;;
     logger_info ("Committed changes: " +:+ msg)).

End GitController.

(** ** chat_manager/chat_session.py *)

(** [str.lower()], on the letters A to Z; every other character is left
    as it is. *)
Definition lower_char (c : ascii) : ascii :=
  let n := nat_of_ascii c in
  if (65 <=? n) && (n <=? 90) then ascii_of_nat (n + 32) else c.

Fixpoint lower (s : string) : string :=
  match s with
  | EmptyString => EmptyString
  | String c s' => String (lower_char c) (lower s')
  end.

Module ChatSession.

(** The session object. [self.history] is passed along explicitly; an
    exception handler sees the session as it is when the exception is
    raised. *)
Record t : Type := {
  query_manager : QueryManager.t;
  git_controller : bool;          (* GitController() if auto_commit else None *)
  history : list pyval;
  context : loc
}.

(** [ChatSession(auto_commit)] *)
Definition init (auto_commit : bool) : Py t :=
  qm <- QueryManager.init ;;
  c <- alloc [] ;;
  ret {| query_manager := qm; git_controller := auto_commit;
         history := []; context := c |}.

(** What [Prompt.ask] hands to the loop: the line that was typed, as the
    prompt returns it, that is, stripped of the white space around it
    ([typed] below); or Ctrl-C. The end of the input is not among the
    events. *)
Inductive event : Type :=
| Line (s : string)
| CtrlC.

(** How an iteration of the [while True] loop ends. *)
Inductive control : Type := Continue | Break.

Definition _display_welcome (self : t) : Py unit := console_print Welcome.

(** [return Prompt.ask(...)] *)
Definition _get_user_input (self : t) (ev : event) : Py string :=
  match ev with
  | Line s => ret s
  | CtrlC => raise KeyboardInterrupt ""
  end.

Definition _handle_result (self : t) (result : QueryResult.t) : Py t :=
  ts <- now_isoformat ;;
  let self' :=
    {| query_manager := query_manager self;
       git_controller := git_controller self;
       history := history self ++
         [PDict [("query", PStr (QueryResult.query result));
                 ("timestamp", PStr ts);
                 ("code", PStr (QueryResult.code result))]];
       context := context self |} in
  console_print (GeneratedCode (QueryResult.code result)) ;;;
  console_print (Results (QueryResult.result result)) ;;;
  ret self'.

Definition _show_help (self : t) : Py unit := console_print HelpText.

Definition _show_history (self : t) : Py unit :=
  match history self with
  | [] => console_print NoHistory
  | _ => console_print (HistoryTable (history self))
  end.

Definition _save_history (self : t) : Py unit :=
  logged "Failed to save chat history: "
    (QueryManager.bulk_update_history (query_manager self) (history self) ;;;
     logger_info "Chat history saved successfully").

Definition _end_session (self : t) : Py unit :=
  _save_history self ;;;
  console_print Goodbye.

(** The two [except] clauses of the loop body, for the session [self]. *)
Definition on_exception (self : t) (e : exn) : Py (control * t) :=
  if is_Exception e then
    logger_error ("Error in chat session: " +:+ exn_str e) ;;;
    console_print (ErrorLine (exn_str e)) ;;;
    ret (Continue, self)
  else
    console_print EndingSession ;;;
    ret (Break, self).

(** A step of the loop body, inside its [try]. *)
Definition guarded {A} (self : t) (m : Py A) (k : A -> Py (control * t))
  : Py (control * t) :=
  fun w =>
    match m w with
    | (Ok a, w') => k a w'
    | (Raise e, w') => on_exception self e w'
    end.

(** [query_manager.process_query(query)], [_handle_result] and the
    auto-commit. *)
Definition analyse (self : t) (query : string) : Py (control * t) :=
  guarded self (QueryManager.process_query (query_manager self) query None)
    (fun result =>
       guarded self (_handle_result self result)
         (fun self' =>
            if git_controller self' then
              guarded self'
                (GitController.commit_changes (Some ("Analysis: " +:+ query)))
                (fun _ => ret (Continue, self'))
            else ret (Continue, self'))).

(** One pass through the body of [while True]. *)
Definition iteration (self : t) (ev : event) : Py (control * t) :=
  guarded self (_get_user_input self ev)
    (fun query =>
       if String.eqb (lower query) "exit" then
         guarded self (_end_session self) (fun _ => ret (Break, self))
       else if String.eqb (lower query) "help" then
         guarded self (_show_help self) (fun _ => ret (Continue, self))
       else if String.eqb (lower query) "history" then
         guarded self (_show_history self) (fun _ => ret (Continue, self))
       else analyse self query).

(** The loop, over the events the prompt delivers. It stops at the first
    [Break]; when the events run out the session is still waiting. *)
Fixpoint loop (self : t) (evs : list event) : Py (control * t) :=
  match evs with
  | [] => ret (Continue, self)
  | ev :: evs' =>
      r <- iteration self ev ;;
      match r with
      | (Break, self') => ret (Break, self')
      | (Continue, self') => loop self' evs'
      end
  end.

Definition start_session (self : t) (evs : list event) : Py (control * t) :=
  _display_welcome self ;;; loop self evs.

End ChatSession.

(** ** The prompt *)

(** [Prompt.ask] returns the line that was typed with [str.strip()]
    applied to it. A string is the sequence of its bytes in UTF-8; these
    are the characters that [strip] removes, each as its bytes. *)
Definition white_space : list (list nat) :=
  [[9]; [10]; [11]; [12]; [13];
   [28]; [29]; [30]; [31]; [32];
   [194; 133]; [194; 160]; [225; 154; 128]; [226; 128; 128]; [226; 128; 129];
   [226; 128; 130]; [226; 128; 131]; [226; 128; 132]; [226; 128; 133]; [226; 128; 134];
   [226; 128; 135]; [226; 128; 136]; [226; 128; 137]; [226; 128; 138]; [226; 128; 168];
   [226; 128; 169]; [226; 128; 175]; [226; 129; 159]; [227; 128; 128]].

Definition bytes (codes : list nat) : string :=
  String.string_of_list_ascii (map ascii_of_nat codes).

(** [s] without the prefix [p], when it starts with [p]. *)
Fixpoint without_prefix (p s : string) : option string :=
  match p, s with
  | EmptyString, _ => Some s
  | String a p', String b s' =>
      if Ascii.eqb a b then without_prefix p' s' else None
  | String _ _, EmptyString => None
  end.

(** [s] without the first of the [marks] that it starts with. *)
Fixpoint without_mark (marks : list string) (s : string) : option string :=
  match marks with
  | [] => None
  | p :: marks' =>
      match without_prefix p s with
      | Some rest => Some rest
      | None => without_mark marks' s
      end
  end.

(** [s] without the [marks] at its start, at most [n] of them. *)
Fixpoint without_marks (marks : list string) (n : nat) (s : string) : string :=
  match n with
  | 0 => s
  | S n' =>
      match without_mark marks s with
      | Some rest => without_marks marks n' rest
      | None => s
      end
  end.

Definition reverse (s : string) : string :=
  String.string_of_list_ascii (rev (String.list_ascii_of_string s)).

(** [s.lstrip()], [s.rstrip()] and [s.strip()] *)
Definition lstrip (s : string) : string :=
  without_marks (map bytes white_space) (String.length s) s.

Definition rstrip (s : string) : string :=
  reverse (without_marks (map (fun codes => reverse (bytes codes)) white_space)
                         (String.length s) (reverse s)).

Definition strip (s : string) : string := rstrip (lstrip s).

(** What the prompt hands to the loop for a line that was typed. *)
Definition typed (line : string) : ChatSession.event :=
  ChatSession.Line (strip line).

(** ** Serialising lists, and reading worlds *)

(** [json.dumps] along a list, item by item. *)
Fixpoint dumps_list (l : list pyval) : dumped (list json) :=
  match l with
  | [] => Dumped []
  | x :: l' =>
      match dumps x with
      | Dumped j => dumped_map (cons j) (dumps_list l')
      | NotSerializable c => NotSerializable c
      end
  end.

(** [json.dumps] along the items of a dictionary. *)
Fixpoint dumps_items (l : dict) : dumped (list (string * json)) :=
  match l with
  | [] => Dumped []
  | (k, x) :: l' =>
      match dumps x with
      | Dumped j => dumped_map (cons (k, j)) (dumps_items l')
      | NotSerializable c => NotSerializable c
      end
  end.

(** The entries of a history file: none when there is no file, the items
    when the file holds an array; any other text is no history. *)
Definition entries_of (f : option file_text) : option (list json) :=
  match f with
  | None => Some []
  | Some (Decodes (JArr xs)) => Some xs
  | Some _ => None
  end.



(** The world [w] with the file [f] for [qna.json]. *)
Definition with_qna (f : option file_text) (w : World) : World :=
  mkWorld (heap w) f (clock w) (ticks w) (git_error w) (commits w) (log w)
          (console w).

(** The world [w] with the logger records [lg]. *)
Definition with_log (lg : list (level * string)) (w : World) : World :=
  mkWorld (heap w) (qna w) (clock w) (ticks w) (git_error w) (commits w) lg
          (console w).

(** The contents of the manager's context dictionary. *)
Definition context_now (self : QueryManager.t) (w : World) : dict :=
  default [] (heap w !! QueryManager.context self).

(** The value of a result's context in a world. *)
Definition context_in (w : World) (r : QueryResult.t) : pyval :=
  match QueryResult.context r with
  | Some l => PDict (default [] (heap w !! l))
  | None => PNone
  end.

(** The dictionary [_update_history] appends for a result whose context
    has the value [ctx]. *)
Definition entry_of (r : QueryResult.t) (ctx : pyval) : pyval :=
  PDict [("query", PStr (QueryResult.query r));
         ("code", PStr (QueryResult.code r));
         ("timestamp", PStr (QueryResult.timestamp r));
         ("context", ctx)].

(** The object written to the history file for a result. *)
Definition written (r : QueryResult.t) (cj : json) : json :=
  JObj [("query", JStr (QueryResult.query r));
        ("code", JStr (QueryResult.code r));
        ("timestamp", JStr (QueryResult.timestamp r));
        ("context", cj)].

(** ** The stages of a turn *)

(** The stages of [process_query], up to the call of [_update_history]:
    the heap once [context] is merged into the manager's dictionary, the
    copy [_create_result] takes of it and where it puts the copy, the
    result object, and the world handed to [_update_history]. *)
Definition merged_heap (self : QueryManager.t) (ctx : option dict) (w : World)
  : gmap loc dict :=
  if truthy ctx then
    <[QueryManager.context self :=
        dict_update (context_now self w) (default [] ctx)]> (heap w)
  else heap w.

Definition snapshot (self : QueryManager.t) (ctx : option dict) (w : World) : dict :=
  default [] (merged_heap self ctx w !! QueryManager.context self).

Definition snapshot_loc (self : QueryManager.t) (ctx : option dict) (w : World) : loc :=
  fresh (dom (merged_heap self ctx w)).

(** The fragment [generate] returns for a query. *)
Definition generated (query : string) : string :=
  query +:+ String "010" "# TODO: Implement analysis".

Definition result_of (self : QueryManager.t) (query : string) (ctx : option dict)
  (w : World) : QueryResult.t :=
  {| QueryResult.query := query;
     QueryResult.code := generated query;
     QueryResult.result := PStr "Analysis results placeholder";
     QueryResult.timestamp := clock w (ticks w);
     QueryResult.context := Some (snapshot_loc self ctx w) |}.

Definition staged (self : QueryManager.t) (ctx : option dict) (w : World) : World :=
  mkWorld (<[snapshot_loc self ctx w := snapshot self ctx w]> (merged_heap self ctx w))
          (qna w) (clock w) (S (ticks w)) (git_error w) (commits w) (log w)
          (console w).

(** [_update_history] called for each result in turn. *)
Fixpoint update_each (self : QueryManager.t) (rs : list QueryResult.t) : Py unit :=
  match rs with
  | [] => ret tt
  | r :: rs' => QueryManager._update_history self r ;;; update_each self rs'
  end.

(** The guards of the loop body: the lower-cased input is one of the
    three command names. *)
Definition is_builtin (query : string) : bool :=
  String.eqb (lower query) "exit" || String.eqb (lower query) "help"
  || String.eqb (lower query) "history".

(** ** Notions of the specification *)

(** The spec's notion of a query that is blank after trimming: all its
    characters are white space that [str.strip()] removes. The source
    itself never trims a query. *)
Definition is_space (c : ascii) : bool :=
  let n := nat_of_ascii c in
  ((9 <=? n) && (n <=? 13)) || ((28 <=? n) && (n <=? 32)).

Fixpoint blank_after_trimming (s : string) : bool :=
  match s with
  | EmptyString => true
  | String c s' => is_space c && blank_after_trimming s'
  end.

(** ** Sample worlds and values *)

(** A clock for the sample worlds. *)
Definition sample_clock (n : nat) : string :=
  match n with
  | 0 => "2024-05-01T10:00:00.000001"
  | 1 => "2024-05-01T10:00:00.000002"
  | 2 => "2024-05-01T10:00:05.000001"
  | _ => "2024-05-01T10:00:09.000000"
  end.

(** A fresh working directory: no [qna.json], nothing allocated. *)
Definition empty_world : World :=
  mkWorld ∅ None sample_clock 0 None [] [] [].

(** The manager [QueryManager()] builds in the empty world, and that world
    afterwards. *)
Definition sample_manager : QueryManager.t :=
  {| QueryManager.code_generator := CodeGenerator.init;
     QueryManager.context := 0 |}.

Definition fresh_world : World :=
  mkWorld {[0 := []]} None sample_clock 0 None [] [] [].

(** The same, with a [qna.json] whose text is not JSON. *)
Definition corrupt_world : World :=
  with_qna (Some (Malformed "Expecting value: line 1 column 1 (char 0)"))
           fresh_world.

(** The session [ChatSession(auto_commit=False)] builds in the empty world,
    and that world afterwards. *)
Definition sample_session : ChatSession.t :=
  {| ChatSession.query_manager := sample_manager;
     ChatSession.git_controller := false;
     ChatSession.history := [];
     ChatSession.context := 1 |}.

Definition session_world : World :=
  mkWorld (<[1 := []]> {[0 := []]}) None sample_clock 0 None [] [] [].

(** A loaded dataset of three rows and two columns. *)
Definition sample_frame : pyval :=
  PObject "DataFrame" (Some (PTuple [PInt 3; PInt 2])).

(** A fragment that imports a module dynamically and removes a directory
    tree. *)
Definition file_access_fragment : string :=
  "__import__('shutil').rmtree('/tmp')".

(** An entry as the chat session keeps it in its own list. *)
Definition sample_entry : pyval :=
  PDict [("query", PStr "mean of column A");
         ("timestamp", PStr "2024-05-01T10:00:00.000002");
         ("code", PStr (generated "mean of column A"))].

(** A result as [_create_result] builds it, with the dictionary object at
    address 0 for its context. *)
Definition sample_result : QueryResult.t :=
  {| QueryResult.query := "mean of column A";
     QueryResult.code := generated "mean of column A";
     QueryResult.result := PStr "Analysis results placeholder";
     QueryResult.timestamp := "2024-05-01T10:00:00.000001";
     QueryResult.context := Some 0 |}.

(** ** config_manager/config_handler.py *)

(** Truth value of a Python value ([not config]): [None], [False], zero
    and the empty string and containers are false. *)
Definition truth (v : pyval) : bool :=
  match v with
  | PNone => false
  | PBool b => b
  | PInt n => negb (Z.eqb n 0)
  | PStr s => negb (String.eqb s "")
  | PList xs | PTuple xs => match xs with [] => false | _ => true end
  | PDict kvs => match kvs with [] => false | _ => true end
  | PObject _ _ => true
  end.

(** Truth value of an optional string: [None] and the empty string are
    false. *)
Definition given (o : option string) : bool :=
  match o with
  | None | Some EmptyString => false
  | Some _ => true
  end.

Module ConfigHandler.

(** [ConfigDefaults] *)
Record ConfigDefaults : Type := {
  output_format : string;
  auto_commit : bool;
  save_history : bool
}.

(** The handler object: [self.defaults]; [self.config_path] names the file
    of the [Disk] below. *)
Record t : Type := { defaults : ConfigDefaults }.

(** [ConfigHandler(config_path)] *)
Definition init : t :=
  {| defaults := {| output_format := "text"; auto_commit := true;
                    save_history := true |} |}.

(** A logger record of this module; the values that the messages format
    are kept as they are. *)
Inductive note : Type :=
| Updated (key : string) (value : pyval)
| ResetDone
| Failed (prefix : string) (msg : string).

(** What the handler works on: the file at [config_path] (kept as the
    document it decodes to, [None] when there is no file) and the
    logger. *)
Record Disk : Type := mkDisk {
  feathers : option file_text;
  notes : list note
}.

(** Computations on a [Disk] that return or raise. *)
Definition Cfg (A : Type) : Type := Disk -> result A * Disk.

Definition cret {A} (a : A) : Cfg A := fun d => (Ok a, d).

Definition craise {A} (c : exn_class) (msg : string) : Cfg A :=
  fun d => (Raise (Exn c msg), d).

Definition cbind {A B} (m : Cfg A) (k : A -> Cfg B) : Cfg B :=
  fun d =>
    match m d with
    | (Ok a, d') => k a d'
    | (Raise e, d') => (Raise e, d')
    end.

Definition cnote (n : note) : Cfg unit :=
  fun d => (Ok tt, mkDisk (feathers d) (n :: notes d)).

(** [try: body / except Exception as e: logger.error(prefix + str(e)); raise] *)
Definition clogged {A} (prefix : string) (body : Cfg A) : Cfg A :=
  fun d =>
    match body d with
    | (Ok a, d') => (Ok a, d')
    | (Raise e, d') =>
        if is_Exception e
        then (Raise e, mkDisk (feathers d') (Failed prefix (exn_str e) :: notes d'))
        else (Raise e, d')
    end.

Definition _create_default_config (self : t) : pyval :=
  PDict [("output_format", PStr (output_format (defaults self)));
         ("auto_commit", PBool (auto_commit (defaults self)));
         ("save_history", PBool (save_history (defaults self)))].

(** [self.config_path.write_text(json.dumps(config, indent=2))] *)
Definition _save_config (self : t) (config : pyval) : Cfg unit :=
  match dumps config with
  | Dumped j => fun d => (Ok tt, mkDisk (Some (Decodes j)) (notes d))
  | NotSerializable cls =>
      craise TypeError ("Object of type " +:+ cls +:+ " is not JSON serializable")
  end.

Definition get_config (self : t) : Cfg pyval :=
  clogged "Failed to read configuration: "
    (fun d =>
       match feathers d with
       | Some (Decodes j) =>
           let config := loads j in
           if negb (truth config) then
             cbind (_save_config self (_create_default_config self))
                   (fun _ => cret (_create_default_config self)) d
           else cret config d
       | Some (Malformed msg) => craise JSONDecodeError msg d
       | None =>
           cbind (_save_config self (_create_default_config self))
                 (fun _ => cret (_create_default_config self)) d
       end).

(** [config[key] = value] *)
Definition setitem (config : pyval) (key : string) (value : pyval) : Cfg pyval :=
  match config with
  | PDict d => cret (PDict (dict_set d key value))
  | PList _ => craise TypeError "list indices must be integers or slices, not str"
  | _ => craise TypeError
           ("'" +:+ type_name config +:+ "' object does not support item assignment")
  end.

Definition set_config (self : t) (key : string) (value : pyval) : Cfg unit :=
  clogged "Failed to set configuration: "
    (cbind (get_config self) (fun config =>
     cbind (setitem config key value) (fun config =>
     cbind (_save_config self config) (fun _ =>
     cnote (Updated key value))))).

Definition reset_config (self : t) : Cfg unit :=
  clogged "Failed to reset configuration: "
    (cbind (_save_config self (_create_default_config self)) (fun _ =>
     cnote ResetDone)).

End ConfigHandler.

(** ** cli/main.py *)

Module Cli.

(** What the [analyze] command prints on the console of [cli/main.py]. *)
Inductive printed : Type :=
| GeneratedCodePanel (code : string)
| ResultsPanel (value : pyval)
| ChangesCommitted
| ErrorText (msg : string).

(** How a command ends: with an exit status (0 when the function returns,
    1 for [raise typer.Exit(1)]), with an exception no clause catches, or
    not yet, the chat loop waiting for more input. *)
Inductive ending : Type :=
| Exit (status : nat)
| Uncaught (e : exn)
| Running.

(** The [except Exception] clause of [analyze]. *)
Definition analyze_failed (msg : string) (w : World) (out : list printed)
  : ending * World * list printed :=
  (Exit 1, snd (logger_error ("Analysis failed: " +:+ msg) w), ErrorText msg :: out).

Definition analyze_except (e : exn) (w : World) (out : list printed)
  : ending * World * list printed :=
  if is_Exception e then analyze_failed (exn_str e) w out
  else (Uncaught e, w, out).

(** The [analyze] command. [evs] is what the prompt of a chat session
    delivers. The [typer.BadParameter] raised for a missing query is
    caught by the [except Exception] clause right away. *)
Definition analyze (query : option string) (save chat : bool)
  (evs : list ChatSession.event) (w : World) (out : list printed)
  : ending * World * list printed :=
  if chat then
    match ChatSession.init save w with
    | (Ok session, w1) =>
        match ChatSession.start_session session evs w1 with
        | (Ok (ChatSession.Break, _), w2) => (Exit 0, w2, out)
        | (Ok (ChatSession.Continue, _), w2) => (Running, w2, out)
        | (Raise e, w2) => analyze_except e w2 out
        end
    | (Raise e, w1) => analyze_except e w1 out
    end
  else if negb (given query) then
    analyze_failed "Query is required in non-chat mode" w out
  else
    let q := default "" query in
    match QueryManager.init w with
    | (Ok query_manager, w1) =>
        match QueryManager.process_query query_manager q None w1 with
        | (Ok r, w2) =>
            let out2 := ResultsPanel (QueryResult.result r)
                        :: GeneratedCodePanel (QueryResult.code r) :: out in
            if save then
              match GitController.commit_changes (Some ("Analysis: " +:+ q)) w2 with
              | (Ok _, w3) => (Exit 0, w3, ChangesCommitted :: out2)
              | (Raise e, w3) => analyze_except e w3 out2
              end
            else (Exit 0, w2, out2)
        | (Raise e, w2) => analyze_except e w2 out
        end
    | (Raise e, w1) => analyze_except e w1 out
    end.

End Cli.

(** ** Further readings of values and worlds *)

(** The value of a key of a JSON object. *)
Definition json_get (j : json) (k : string) : option json :=
  match j with
  | JObj kvs =>
      (fix get (l : list (string * json)) : option json :=
         match l with
         | [] => None
         | (k', v) :: l' => if String.eqb k' k then Some v else get l'
         end) kvs
  | _ => None
  end.

(** Setting a key of the items of a JSON object, as [dict_set] does on a
    dictionary. *)
Fixpoint obj_set (kvs : list (string * json)) (k : string) (v : json)
  : list (string * json) :=
  match kvs with
  | [] => [(k, v)]
  | (k', v') :: kvs' =>
      if String.eqb k' k then (k', v) :: kvs' else (k', v') :: obj_set kvs' k v
  end.

(** The entry the chat session keeps in its own list for a result. *)
Definition session_entry (r : QueryResult.t) (ts : string) : pyval :=
  PDict [("query", PStr (QueryResult.query r));
         ("timestamp", PStr ts);
         ("code", PStr (QueryResult.code r))].

(** The session with another list. *)
Definition with_history (self : ChatSession.t) (h : list pyval) : ChatSession.t :=
  {| ChatSession.query_manager := ChatSession.query_manager self;
     ChatSession.git_controller := ChatSession.git_controller self;
     ChatSession.history := h;
     ChatSession.context := ChatSession.context self |}.

(** Whether a file is a history: absent, or a JSON array. *)
Definition is_history (f : option file_text) : bool :=
  match entries_of f with
  | Some _ => true
  | None => false
  end.

(** The document [json.dumps] writes for the default configuration. *)
Definition default_document (self : ConfigHandler.t) : json :=
  JObj [("output_format",
         JStr (ConfigHandler.output_format (ConfigHandler.defaults self)));
        ("auto_commit",
         JBool (ConfigHandler.auto_commit (ConfigHandler.defaults self)));
        ("save_history",
         JBool (ConfigHandler.save_history (ConfigHandler.defaults self)))].

(** [json.loads] along the items of an object. *)
Definition loads_items (kvs : list (string * json)) : dict :=
  map (fun kv => (fst kv, loads (snd kv))) kvs.

(** A working directory with no configuration file. *)
Definition empty_disk : ConfigHandler.Disk :=
  ConfigHandler.mkDisk None [].

(** A session that commits after each turn. *)
Definition committing_session : ChatSession.t :=
  {| ChatSession.query_manager := sample_manager;
     ChatSession.git_controller := true;
     ChatSession.history := [];
     ChatSession.context := 1 |}.

(** Whether [git add] and [git commit] succeed in a world. *)
Definition git_works (w : World) : bool :=
  match git_error w with
  | None => true
  | Some _ => false
  end.

(** ** A turn that is interrupted *)

(** Ctrl-C while [process_query] runs. Python raises [KeyboardInterrupt]
    in the statement that is running when the signal is handled. Neither
    [except Exception] clause catches it, so it leaves [process_query]
    with nothing logged, and what the statements before it did stays
    done. The statement reached is one of the three that come before the
    result is built and the history written. *)
Inductive interrupt_point : Type :=
| AtUpdate       (* before [self.context.update(context)] *)
| AtGenerate     (* in [self.code_generator.generate(query, self.context)] *)
| AtExecute.     (* in [self._execute_analysis(code)] *)

(** [process_query], interrupted at [point]. *)
Definition interrupted_process_query (point : interrupt_point)
  (self : QueryManager.t) (query : string) (context : option dict)
  : Py QueryResult.t :=
  logged "Query processing failed: "
    (match point with
     | AtUpdate => raise KeyboardInterrupt ""
     | _ =>
         (if truthy context
          then update_at (QueryManager.context self) (default [] context)
          else ret tt) ;;;
         ctx <- deref (QueryManager.context self) ;;
         match point with
         | AtGenerate => raise KeyboardInterrupt ""
         | _ =>
             code <- CodeGenerator.generate (QueryManager.code_generator self)
                       query (Some ctx) ;;
             raise KeyboardInterrupt ""
         end
     end).

(** ** Values that JSON has *)

(** A value made of what JSON has: [None], booleans, integers, strings,
    and lists and dictionaries of such values. A tuple is not one: it is
    written as an array, and an array is read back as a list. Nor is an
    integer of more than 4300 digits, which Python does not convert to a
    string. *)
Fixpoint json_shaped (v : pyval) : bool :=
  match v with
  | PNone | PBool _ | PStr _ => true
  | PInt n => (Z.abs n <? 10 ^ 4300)%Z
  | PList xs => forallb json_shaped xs
  | PDict kvs => forallb (fun kv => json_shaped (snd kv)) kvs
  | PTuple _ | PObject _ _ => false
  end.

(** An entry whose context holds the shape of a dataset, a tuple. *)
Definition shape_entry : pyval :=
  PDict [("query", PStr "shape of the data");
         ("code", PStr (generated "shape of the data"));
         ("timestamp", PStr "2024-05-01T10:00:00.000001");
         ("context", PDict [("shape", PTuple [PInt 3; PInt 2])])].

(** ** The console's markup *)

(** [console.print] reads a string it is given for markup tags, and so
    does a table for the strings in its cells; rich raises [MarkupError]
    on a closing tag that closes nothing, as in the text [a[/b]]. The loop
    of [ChatSession] above is the loop on a console on which every text
    renders. Here the parser of rich is a parameter: [markup t] is the
    message of the [MarkupError] raised on the text [t], or [None] when
    [t] renders. Two prints of the loop are given text that is not fixed
    in the source: the table of [_show_history], for the queries in its
    rows, and the error line of the [except Exception] clause, for the
    message of the exception. An exception raised by the print of that
    clause is raised inside the handler, so none of the clauses catches
    it and it leaves [start_session]. *)
Module Console.

(** [entry['query']] for the rows of the table, in order. *)
Definition queries (h : list pyval) : list string :=
  flat_map (fun entry =>
              match entry with
              | PDict d =>
                  match dict_get d "query" with
                  | Some (PStr q) => [q]
                  | _ => []
                  end
              | _ => []
              end) h.

Section Markup.

Variable markup : string -> option string.

(** The message for the first of the texts, in order, that does not
    render. *)
Fixpoint refused (texts : list string) : option string :=
  match texts with
  | [] => None
  | t :: texts' =>
      match markup t with
      | Some msg => Some msg
      | None => refused texts'
      end
  end.

(** [console.print] of something whose [texts] are read for markup. *)
Definition print (texts : list string) (s : shown) : Py unit :=
  match refused texts with
  | Some msg => raise MarkupError msg
  | None => console_print s
  end.

Definition _show_history (self : ChatSession.t) : Py unit :=
  match ChatSession.history self with
  | [] => console_print NoHistory
  | _ => print (queries (ChatSession.history self))
               (HistoryTable (ChatSession.history self))
  end.

(** The two [except] clauses of the loop body; the error line is
    [f"\n[red]Error:[/red] {str(e)}"]. *)
Definition on_exception (self : ChatSession.t) (e : exn)
  : Py (ChatSession.control * ChatSession.t) :=
  if is_Exception e then
    logger_error ("Error in chat session: " +:+ exn_str e) ;;;
    print [String "010" "[red]Error:[/red] " +:+ exn_str e]
          (ErrorLine (exn_str e)) ;;;
    ret (ChatSession.Continue, self)
  else
    console_print EndingSession ;;;
    ret (ChatSession.Break, self).

Definition guarded {A} (self : ChatSession.t) (m : Py A)
  (k : A -> Py (ChatSession.control * ChatSession.t))
  : Py (ChatSession.control * ChatSession.t) :=
  fun w =>
    match m w with
    | (Ok a, w') => k a w'
    | (Raise e, w') => on_exception self e w'
    end.

Definition analyse (self : ChatSession.t) (query : string)
  : Py (ChatSession.control * ChatSession.t) :=
  guarded self
    (QueryManager.process_query (ChatSession.query_manager self) query None)
    (fun result =>
       guarded self (ChatSession._handle_result self result)
         (fun self' =>
            if ChatSession.git_controller self' then
              guarded self'
                (GitController.commit_changes (Some ("Analysis: " +:+ query)))
                (fun _ => ret (ChatSession.Continue, self'))
            else ret (ChatSession.Continue, self'))).

Definition iteration (self : ChatSession.t) (ev : ChatSession.event)
  : Py (ChatSession.control * ChatSession.t) :=
  guarded self (ChatSession._get_user_input self ev)
    (fun query =>
       if String.eqb (lower query) "exit" then
         guarded self (ChatSession._end_session self)
                 (fun _ => ret (ChatSession.Break, self))
       else if String.eqb (lower query) "help" then
         guarded self (ChatSession._show_help self)
                 (fun _ => ret (ChatSession.Continue, self))
       else if String.eqb (lower query) "history" then
         guarded self (_show_history self)
                 (fun _ => ret (ChatSession.Continue, self))
       else analyse self query).

Fixpoint loop (self : ChatSession.t) (evs : list ChatSession.event)
  : Py (ChatSession.control * ChatSession.t) :=
  match evs with
  | [] => ret (ChatSession.Continue, self)
  | ev :: evs' =>
      r <- iteration self ev ;;
      match r with
      | (ChatSession.Break, self') => ret (ChatSession.Break, self')
      | (ChatSession.Continue, self') => loop self' evs'
      end
  end.

Definition start_session (self : ChatSession.t) (evs : list ChatSession.event)
  : Py (ChatSession.control * ChatSession.t) :=
  ChatSession._display_welcome self ;;; loop self evs.

End Markup.

End Console.

(** A console on which every text renders. *)
Definition renders_all : string -> option string := fun _ => None.

(** The console at work on the query [a[/b]]: rich refuses the query, in
    which the tag closes nothing, and then the line that reports the
    refusal, which quotes the tag. *)
Definition sample_markup (t : string) : option string :=
  if String.eqb t "a[/b]" then
    Some "closing tag '[/b]' at position 1 doesn't match any open tag"
  else if String.eqb t
            (String "010" "[red]Error:[/red] closing tag '[/b]' at position 1 doesn't match any open tag")
  then Some "closing tag '[/b]' at position 32 doesn't match any open tag"
  else None.

(** The sample session after a turn on the query [a[/b]]. *)
Definition marked_session : ChatSession.t :=
  {| ChatSession.query_manager := sample_manager;
     ChatSession.git_controller := false;
     ChatSession.history :=
       [PDict [("query", PStr "a[/b]");
               ("timestamp", PStr "2024-05-01T10:00:00.000002");
               ("code", PStr (generated "a[/b]"))]];
     ChatSession.context := 1 |}.

(** ** Dictionaries that share values *)

(** [self.context.copy()] is a shallow copy: the new dictionary has the
    bindings of the old one, and a value that is itself a dictionary is
    one object, held by both. Here a value of a dictionary is either one
    that nothing changes in place, kept as its tree, or a reference to a
    dictionary object; the methods of [QueryManager] that touch the
    context are embedded once more, over such objects. *)
Module Sharing.

Inductive value : Type :=
| Plain (v : pyval)
| Ref (l : loc).

(** A dictionary object, in insertion order. *)
Definition object : Type := list (string * value).

(** [d[k] = v] *)
Fixpoint set (o : object) (k : string) (v : value) : object :=
  match o with
  | [] => [(k, v)]
  | (k', v') :: o' =>
      if String.eqb k' k then (k', v) :: o' else (k', v') :: set o' k v
  end.

(** [d.update(other)] *)
Definition update (o other : object) : object :=
  fold_left (fun acc kv => set acc (fst kv) (snd kv)) other o.

(** Truth value of an [Optional[Dict]]. *)
Definition truthy (o : option object) : bool :=
  match o with
  | None | Some [] => false
  | Some (_ :: _) => true
  end.

(** The dictionary objects, and the rest of the world: the history file,
    the clock and the logger of [outside] (its own [heap] plays no part
    here). *)
Record State : Type := mkState {
  objects : gmap loc object;
  outside : World
}.

Definition Sh (A : Type) : Type := State -> result A * State.

Definition sret {A} (a : A) : Sh A := fun st => (Ok a, st).

Definition sbind {A B} (m : Sh A) (k : A -> Sh B) : Sh B :=
  fun st =>
    match m st with
    | (Ok a, st') => k a st'
    | (Raise e, st') => (Raise e, st')
    end.

Notation "x <~ m ;; k" := (sbind m (fun x => k))
  (at level 100, m at next level, right associativity).
Notation "m ;;~ k" := (sbind m (fun _ => k))
  (at level 100, right associativity).

(** A computation that leaves the dictionary objects alone. *)
Definition lift {A} (m : Py A) : Sh A :=
  fun st => let (r, w) := m (outside st) in (r, mkState (objects st) w).

(** [try: body / except Exception as e: logger.error(prefix + str(e)); raise] *)
Definition logged {A} (prefix : string) (body : Sh A) : Sh A :=
  fun st =>
    match body st with
    | (Ok a, st') => (Ok a, st')
    | (Raise e, st') =>
        if is_Exception e
        then (Raise e, snd (lift (logger_error (prefix +:+ exn_str e)) st'))
        else (Raise e, st')
    end.

(** The bindings of the dictionary object at [l]. *)
Definition contents (l : loc) : Sh object :=
  fun st => (Ok (default [] (objects st !! l)), st).

(** [obj.update(other)] on the dictionary object at [l], in place. *)
Definition update_at (l : loc) (other : object) : Sh unit :=
  fun st => (Ok tt, mkState (<[l := update (default [] (objects st !! l)) other]>
                               (objects st)) (outside st)).

(** [obj[k] = v] on the dictionary object at [l], in place. *)
Definition setitem (l : loc) (k : string) (v : value) : Sh unit :=
  fun st => (Ok tt, mkState (<[l := set (default [] (objects st !! l)) k v]>
                               (objects st)) (outside st)).

(** [obj.copy()]: a new dictionary object with the bindings of the one at
    [l]; the values are not copied. *)
Definition copy (l : loc) : Sh loc :=
  fun st => let l' := fresh (dom (objects st)) in
            (Ok l', mkState (<[l' := default [] (objects st !! l)]> (objects st))
                            (outside st)).

(** What [json.dumps] makes of a value it reads through the references:
    a document, the [TypeError] for the first object it cannot serialise,
    or the [ValueError] for a dictionary that is found inside itself. *)
Inductive read (A : Type) : Type :=
| Read (a : A)
| Unserialisable (cls : string)
| Circular.
Arguments Read {A} a.
Arguments Unserialisable {A} cls.
Arguments Circular {A}.

Definition read_map {A B} (f : A -> B) (r : read A) : read B :=
  match r with
  | Read a => Read (f a)
  | Unserialisable c => Unserialisable c
  | Circular => Circular
  end.

(** [json.dumps] of a value, items in order, stopping at the first that
    fails. A dictionary that holds itself is read round and round until
    the [fuel] is spent; one that does not is read in as many steps as
    there are objects, at most. (An address without an object is no value
    of a Python program; reading it fails as well.) *)
Fixpoint dump (fuel : nat) (objs : gmap loc object) (v : value) : read json :=
  match v with
  | Plain p =>
      match dumps p with
      | Dumped j => Read j
      | NotSerializable c => Unserialisable c
      end
  | Ref l =>
      match fuel with
      | 0 => Circular
      | S n =>
          match objs !! l with
          | None => Circular
          | Some o =>
              read_map JObj
                ((fix items (o : object) : read (list (string * json)) :=
                    match o with
                    | [] => Read []
                    | (k, x) :: o' =>
                        match dump n objs x with
                        | Read j => read_map (cons (k, j)) (items o')
                        | Unserialisable c => Unserialisable c
                        | Circular => Circular
                        end
                    end) o)
          end
      end
  end.

(** [json.dumps] of the dictionary object at [l]. *)
Definition dump_at (st : State) (l : loc) : read json :=
  dump (S (size (objects st))) (objects st) (Ref l).

(** What [generate] is shown of the context. It looks at [context["data"]]
    and at the [shape] attribute of that value only; a dictionary has no
    such attribute, so one that is held by reference is shown without its
    items. *)
Definition view (o : object) : dict :=
  map (fun kv => (fst kv, match snd kv with
                          | Plain p => p
                          | Ref _ => PDict []
                          end)) o.

Definition _create_result (self : QueryManager.t) (query code : string)
  (result : pyval) : Sh QueryResult.t :=
  ts <~ lift now_isoformat ;;
  l <~ copy (QueryManager.context self) ;;
  sret {| QueryResult.query := query;
          QueryResult.code := code;
          QueryResult.result := result;
          QueryResult.timestamp := ts;
          QueryResult.context := Some l |}.

(** The document for [result.context] inside [json.dumps(history)]. *)
Definition dump_context (c : option loc) : Sh json :=
  fun st =>
    match match c with
          | Some l => dump_at st l
          | None => Read JNull
          end with
    | Read cj => (Ok cj, st)
    | Unserialisable cls =>
        (Raise (Exn TypeError
                  ("Object of type " +:+ cls +:+ " is not JSON serializable")), st)
    | Circular => (Raise (Exn ValueError "Circular reference detected"), st)
    end.

(** [_update_history]: the history is read, the entry is appended to it,
    and the whole is serialised and written. Of the entry only the context
    can fail to serialise; the entry is handed on as the tree of what
    [json.dumps] has read in it. *)
Definition _update_history (self : QueryManager.t) (result : QueryResult.t)
  : Sh unit :=
  logged "History update failed: "
    (history <~ lift QueryManager.load_history ;;
     match history with
     | PList xs =>
         cj <~ dump_context (QueryResult.context result) ;;
         lift (QueryManager.save_history
                 (PList (xs ++ [entry_of result (loads cj)])))
     | _ => lift (QueryManager.no_attribute history "append")
     end).

Definition process_query (self : QueryManager.t) (query : string)
  (context : option object) : Sh QueryResult.t :=
  logged "Query processing failed: "
    ((if truthy context
      then update_at (QueryManager.context self) (default [] context)
      else sret tt) ;;~
     ctx <~ contents (QueryManager.context self) ;;
     code <~ lift (CodeGenerator.generate (QueryManager.code_generator self)
                     query (Some (view ctx))) ;;
     result <~ lift (QueryManager._execute_analysis self code) ;;
     query_result <~ _create_result self query code result ;;
     _update_history self query_result ;;~
     sret query_result).

(** What may happen to a manager after a turn: further turns, which
    succeed or fail, and updates of its context dictionary in place. *)
Inductive action : Type :=
| Turn (query : string) (ctx : option object)
| Update (other : object).

Definition perform (self : QueryManager.t) (st : State) (a : action) : State :=
  match a with
  | Turn query ctx => snd (process_query self query ctx st)
  | Update other => snd (update_at (QueryManager.context self) other st)
  end.

Definition perform_all (self : QueryManager.t) (acts : list action) (st : State)
  : State :=
  fold_left (perform self) acts st.

End Sharing.

(** [json.dumps] along the items of a dictionary object. *)
Definition dump_items (n : nat) (objs : gmap loc Sharing.object)
  : Sharing.object -> Sharing.read (list (string * json)) :=
  fix items (o : Sharing.object) : Sharing.read (list (string * json)) :=
    match o with
    | [] => Sharing.Read []
    | (k, x) :: o' =>
        match Sharing.dump n objs x with
        | Sharing.Read j => Sharing.read_map (cons (k, j)) (items o')
        | Sharing.Unserialisable c => Sharing.Unserialisable c
        | Sharing.Circular => Sharing.Circular
        end
    end.

(** The size of a document. *)
Fixpoint jsize (j : json) : nat :=
  match j with
  | JArr xs => S (list_sum (map jsize xs))
  | JObj kvs => S (list_sum (map (fun kv => jsize (snd kv)) kvs))
  | _ => 1
  end.

(** The stages of a turn on shared dictionaries: the objects once
    [context] is merged into the manager's dictionary, the objects once
    [_create_result] has taken its copy, the result, and the state handed
    to [_update_history]. *)
Definition merged_objects (self : QueryManager.t) (ctx : option Sharing.object)
  (st : Sharing.State) : gmap loc Sharing.object :=
  if Sharing.truthy ctx then
    <[QueryManager.context self :=
        Sharing.update (default [] (Sharing.objects st !! QueryManager.context self))
                       (default [] ctx)]> (Sharing.objects st)
  else Sharing.objects st.

Definition copied_objects (self : QueryManager.t) (ctx : option Sharing.object)
  (st : Sharing.State) : gmap loc Sharing.object :=
  <[fresh (dom (merged_objects self ctx st)) :=
      default [] (merged_objects self ctx st !! QueryManager.context self)]>
    (merged_objects self ctx st).

Definition shared_result (self : QueryManager.t) (query : string)
  (ctx : option Sharing.object) (st : Sharing.State) : QueryResult.t :=
  {| QueryResult.query := query;
     QueryResult.code := generated query;
     QueryResult.result := PStr "Analysis results placeholder";
     QueryResult.timestamp := clock (Sharing.outside st) (ticks (Sharing.outside st));
     QueryResult.context := Some (fresh (dom (merged_objects self ctx st))) |}.

Definition copied (self : QueryManager.t) (ctx : option Sharing.object)
  (st : Sharing.State) : Sharing.State :=
  Sharing.mkState (copied_objects self ctx st)
                  (snd (now_isoformat (Sharing.outside st))).

(** What [json.dumps] reads in the context of a result. *)
Definition context_document (st : Sharing.State) (r : QueryResult.t)
  : Sharing.read json :=
  match QueryResult.context r with
  | Some l => Sharing.dump_at st l
  | None => Sharing.Read JNull
  end.

(** What later turns and updates of the manager's dictionary keep of a
    state: every other dictionary object, and the entries of the history
    file, in place. *)
Definition shared_kept (self : QueryManager.t) (st1 st2 : Sharing.State)
  (entries : list json) : Prop :=
  (forall l o, l <> QueryManager.context self ->
               Sharing.objects st1 !! l = Some o ->
               Sharing.objects st2 !! l = Some o) /\
  is_Some (Sharing.objects st2 !! QueryManager.context self) /\
  exists more, entries_of (qna (Sharing.outside st2)) = Some (entries ++ more).

(** A dictionary as an object none of whose values is held by reference,
    and a world as a state of such objects. *)
Definition plain (d : dict) : Sharing.object :=
  map (fun kv => (fst kv, Sharing.Plain (snd kv))) d.

Definition plain_state (w : World) : Sharing.State :=
  Sharing.mkState (plain <$> heap w) w.

(** The world [w] with the dictionary objects [h]. *)
Definition reheap (h : gmap loc dict) (w : World) : World :=
  mkWorld h (qna w) (clock w) (ticks w) (git_error w) (commits w) (log w)
          (console w).

(** The fresh world with one more dictionary object, the requirements
    [{"alpha": 5}] that a caller holds. *)
Definition nested_state : Sharing.State :=
  Sharing.mkState (<[5 := [("alpha", Sharing.Plain (PInt 5))]]> {[0 := []]})
                  fresh_world.

(** * Properties *)

(** ** Serialisation *)

Section json_induction.
Variable P : json -> Prop.
Hypothesis Hnull : P JNull.
Hypothesis Hbool : forall b, P (JBool b).
Hypothesis Hnum : forall n, P (JNum n).
Hypothesis Hstr : forall s, P (JStr s).
Hypothesis Harr : forall xs, Forall P xs -> P (JArr xs).
Hypothesis Hobj : forall kvs, Forall (fun kv => P (snd kv)) kvs -> P (JObj kvs).

Fixpoint json_nested_ind (j : json) : P j :=
  match j with
  | JNull => Hnull
  | JBool b => Hbool b
  | JNum n => Hnum n
  | JStr s => Hstr s
  | JArr xs =>
      Harr xs ((fix go (l : list json) : Forall P l :=
                  match l with
                  | [] => List.Forall_nil P
                  | x :: l' => List.Forall_cons P x l' (json_nested_ind x) (go l')
                  end) xs)
  | JObj kvs =>
      Hobj kvs ((fix go (l : list (string * json))
                   : Forall (fun kv => P (snd kv)) l :=
                   match l with
                   | [] => List.Forall_nil _
                   | kv :: l' =>
                       List.Forall_cons (fun kv => P (snd kv)) kv l'
                                   (json_nested_ind (snd kv)) (go l')
                   end) kvs)
  end.
End json_induction.

Lemma dumps_PList xs : dumps (PList xs) = dumped_map JArr (dumps_list xs).
Proof. reflexivity. Qed.


Lemma dumps_PDict kvs : dumps (PDict kvs) = dumped_map JObj (dumps_items kvs).
Proof. reflexivity. Qed.

(** Writing a decoded document gives the document back. *)
Lemma dumps_loads j : dumps (loads j) = Dumped j.
Proof.
  induction j as [| | | |xs IH|kvs IH] using json_nested_ind; try reflexivity.
  - cbn [loads]. rewrite dumps_PList.
    assert (dumps_list (map loads xs) = Dumped xs) as ->; [|reflexivity].
    induction IH as [|x xs Hx _ IHxs]; [reflexivity|].
    cbn [map dumps_list]. now rewrite Hx, IHxs.
  - cbn [loads]. rewrite dumps_PDict.
    assert (dumps_items (map (fun kv => (fst kv, loads (snd kv))) kvs)
            = Dumped kvs) as ->; [|reflexivity].
    induction IH as [|[k x] kvs Hx _ IHkvs]; [reflexivity|].
    cbn [map dumps_items fst snd] in *. now rewrite Hx, IHkvs.
Qed.

Lemma dumps_list_loads xs : dumps_list (map loads xs) = Dumped xs.
Proof.
  induction xs as [|x xs IH]; [reflexivity|].
  cbn [map dumps_list]. now rewrite dumps_loads, IH.
Qed.

Lemma dumps_list_app xs ys :
  dumps_list (xs ++ ys) =
  match dumps_list xs with
  | Dumped js => dumped_map (app js) (dumps_list ys)
  | NotSerializable c => NotSerializable c
  end.
Proof.
  induction xs as [|x xs IH]; cbn [app dumps_list].
  - now destruct (dumps_list ys).
  - destruct (dumps x); [|reflexivity]. rewrite IH.
    destruct (dumps_list xs); [|reflexivity].
    now destruct (dumps_list ys).
Qed.


(** ** The history file *)

Ltac py_unfold :=
  cbv [logged try_except bind ret raise reraise logger_error logger_info
       logger_record console_print now_isoformat deref update_at alloc
       write_qna is_Exception exn_cls exn_str
       QueryManager.load_history QueryManager.append QueryManager.extend
       QueryManager.save_history QueryManager.no_attribute
       QueryManager.context_value] in *.

Lemma dumps_history old entries :
  dumps (PList (map loads old ++ entries)) =
  dumped_map (fun js => JArr (old ++ js)) (dumps_list entries).
Proof.
  rewrite dumps_PList, dumps_list_app, dumps_list_loads.
  now destruct (dumps_list entries).
Qed.

(** What [bulk_update_history] does, case by case. *)
Lemma bulk_update_history_cases self entries w :
  match QueryManager.bulk_update_history self entries w with
  | (Ok _, w') =>
      exists old js,
        entries_of (qna w) = Some old /\
        dumps_list entries = Dumped js /\
        w' = with_qna (Some (Decodes (JArr (old ++ js)))) w
  | (Raise e, w') =>
      (entries_of (qna w) = None \/
       exn_cls e = TypeError /\
       exists c, dumps_list entries = NotSerializable c) /\
      is_Exception e = true /\
      exists lg, w' = with_log lg w
  end.
Proof.
  unfold QueryManager.bulk_update_history. destruct w as [h f ck tk g cm lg co].
  destruct f as [[j|msg]|].
  - destruct j as [| | | |xs|kvs];
      try (py_unfold; cbn; split; [now left|split; [reflexivity|eexists; reflexivity]]).
    py_unfold. cbn [qna loads]. rewrite dumps_history.
    destruct (dumps_list entries) as [js|c]; cbn.
    + now exists xs, js.
    + split; [right; split; [reflexivity|now exists c]|split; [reflexivity|eexists; reflexivity]].
  - py_unfold. cbn. split; [now left|split; [reflexivity|eexists; reflexivity]].
  - py_unfold. cbn [qna]. change (PList ([] ++ entries)) with (PList (map loads [] ++ entries)).
    rewrite dumps_history.
    destruct (dumps_list entries) as [js|c]; cbn.
    + now exists [], js.
    + split; [right; split; [reflexivity|now exists c]|split; [reflexivity|eexists; reflexivity]].
Qed.

(** What [_update_history] does, case by case. *)
Lemma _update_history_cases self r w :
  match QueryManager._update_history self r w with
  | (Ok _, w') =>
      exists old cj,
        entries_of (qna w) = Some old /\
        dumps (context_in w r) = Dumped cj /\
        w' = with_qna
               (Some (Decodes
                  (JArr (old ++ [written r cj])))) w
  | (Raise e, w') =>
      (entries_of (qna w) = None \/
       exn_cls e = TypeError /\
       exists c, dumps (context_in w r) = NotSerializable c) /\
      is_Exception e = true /\
      exists lg, w' = with_log lg w
  end.
Proof.
  unfold QueryManager._update_history, context_in, written.
  destruct w as [h f ck tk g cm lg co].
  assert (Hentry : forall ctx,
    dumps_list [PDict [("query", PStr (QueryResult.query r));
                       ("code", PStr (QueryResult.code r));
                       ("timestamp", PStr (QueryResult.timestamp r));
                       ("context", ctx)]] =
    dumped_map (fun cj =>
      [JObj [("query", JStr (QueryResult.query r));
             ("code", JStr (QueryResult.code r));
             ("timestamp", JStr (QueryResult.timestamp r));
             ("context", cj)]]) (dumps ctx)).
  { intros ctx. cbn [dumps_list]. rewrite dumps_PDict. cbn [dumps_items dumps].
    now destruct (dumps ctx). }
  destruct f as [[j|msg]|].
  - destruct j as [| | | |xs|kvs];
      try (destruct (QueryResult.context r); py_unfold; cbn;
           (split; [now left|split; [reflexivity|eexists; reflexivity]])).
    destruct (QueryResult.context r) as [l|]; py_unfold; cbn [qna loads heap];
      rewrite dumps_history, Hentry;
      match goal with |- context [dumps ?v] => destruct (dumps v) as [cj|c] eqn:E end;
      cbn;
      solve [ now exists xs, cj
            | split; [right; split; [reflexivity|now exists c]|split; [reflexivity|eexists; reflexivity]] ].
  - destruct (QueryResult.context r); py_unfold; cbn;
      (split; [now left|split; [reflexivity|eexists; reflexivity]]).
  - destruct (QueryResult.context r) as [l|]; py_unfold; cbn [qna heap];
      match goal with
      | |- context [PList ([] ++ ?e)] =>
          change (PList ([] ++ e)) with (PList (map loads [] ++ e))
      end;
      rewrite dumps_history, Hentry;
      match goal with |- context [dumps ?v] => destruct (dumps v) as [cj|c] eqn:E end;
      cbn;
      solve [ now exists [], cj
            | split; [right; split; [reflexivity|now exists c]|split; [reflexivity|eexists; reflexivity]] ].
Qed.

(** ** The generator *)

Lemma generate_eq self query context w :
  CodeGenerator.generate self query context w = (Ok (generated query), w).
Proof. reflexivity. Qed.

Lemma validate_code_eq self code query w :
  CodeGenerator.validate_code self code query w = (Ok true, w).
Proof. reflexivity. Qed.

(** ** A turn of the manager *)

Lemma context_in_staged self query ctx w :
  context_in (staged self ctx w) (result_of self query ctx w) =
  PDict (snapshot self ctx w).
Proof.
  unfold context_in, staged, result_of. cbn [QueryResult.context heap].
  now rewrite lookup_insert_eq.
Qed.

(** What [process_query] does, case by case. *)
Lemma process_query_cases self query ctx w :
  match QueryManager.process_query self query ctx w with
  | (Ok r, w') =>
      r = result_of self query ctx w /\
      exists old cj,
        entries_of (qna w) = Some old /\
        dumps (PDict (snapshot self ctx w)) = Dumped cj /\
        w' = with_qna (Some (Decodes (JArr (old ++ [written r cj]))))
                      (staged self ctx w)
  | (Raise e, w') =>
      (entries_of (qna w) = None \/
       exn_cls e = TypeError /\
       exists c, dumps (PDict (snapshot self ctx w)) = NotSerializable c) /\
      is_Exception e = true /\
      exists lg, w' = with_log lg (staged self ctx w)
  end.
Proof.
  pose proof (_update_history_cases self (result_of self query ctx w)
                (staged self ctx w)) as H.
  rewrite context_in_staged in H. cbn [qna staged] in H.
  assert (QueryManager.process_query self query ctx w =
          match QueryManager._update_history self (result_of self query ctx w)
                  (staged self ctx w) with
          | (Ok _, w') => (Ok (result_of self query ctx w), w')
          | (Raise e, w') =>
              if is_Exception e
              then (Raise e, with_log ((ERROR, "Query processing failed: "
                                               +:+ exn_str e) :: log w') w')
              else (Raise e, w')
          end) as ->.
  { unfold QueryManager.process_query, staged, result_of, snapshot_loc, snapshot,
      merged_heap, context_now, generated.
    unfold CodeGenerator.generate, CodeGenerator._process_query,
      CodeGenerator.validate_code, QueryManager._execute_analysis,
      QueryManager._create_result.
    destruct (truthy ctx); py_unfold; cbn [negb heap qna clock ticks git_error
                                            commits log console];
      match goal with
      | |- context [QueryManager._update_history ?s ?r ?w3] =>
          destruct (QueryManager._update_history s r w3) as [[u|[c m]] w4]
      end; try reflexivity; destruct c; reflexivity. }
  destruct (QueryManager._update_history self (result_of self query ctx w)
              (staged self ctx w)) as [[u|e] w4].
  - split; [reflexivity|]. destruct H as (old & cj & H1 & H2 & ->).
    now exists old, cj.
  - destruct H as (H1 & H2 & lg & ->). rewrite H2.
    split; [assumption|]. split; [exact H2|]. eexists. reflexivity.
Qed.

(** The manager's context after the stages is its context before, updated
    with the context the caller passed. *)
Lemma context_now_staged self ctx w :
  context_now self (staged self ctx w) =
  dict_update (context_now self w) (default [] ctx).
Proof.
  unfold context_now, staged. cbn [heap].
  assert (Hm : default [] (merged_heap self ctx w !! QueryManager.context self) =
               dict_update (default [] (heap w !! QueryManager.context self))
                           (default [] ctx)).
  { unfold merged_heap, context_now. destruct ctx as [[|kv d]|]; cbn [truthy default].
    - reflexivity.
    - now rewrite lookup_insert_eq.
    - reflexivity. }
  destruct (decide (snapshot_loc self ctx w = QueryManager.context self)) as [E|N].
  - rewrite E, lookup_insert_eq. cbn [default]. exact Hm.
  - now rewrite lookup_insert_ne.
Qed.

Example init_sample_manager :
  QueryManager.init empty_world = (Ok sample_manager, fresh_world).
Proof. reflexivity. Qed.

(** ** The generator and the validator *)

(** C7. Code generation is deterministic: for a fixed query text and
    context, [generate] returns, whatever the world it runs in, the same
    fragment, and leaves that world as it found it; so two calls, in
    succession or not, return the identical fragment. *)
Theorem generate_deterministic self query context w1 w2 :
  exists code,
    CodeGenerator.generate self query context w1 = (Ok code, w1) /\
    CodeGenerator.generate self query context w2 = (Ok code, w2) /\
    (c1 <- CodeGenerator.generate self query context ;;
     c2 <- CodeGenerator.generate self query context ;;
     ret (c1, c2)) w1 = (Ok (code, code), w1).
Proof.
  exists (generated query). now rewrite !generate_eq.
Qed.

(** C8. Validating a fragment twice in succession returns the same verdict
    both times and changes nothing; the verdict is the same in every
    world, so no state hidden from the arguments influences it. *)
Theorem validate_code_idempotent self code query w :
  exists verdict,
    (v1 <- CodeGenerator.validate_code self code query ;;
     v2 <- CodeGenerator.validate_code self code query ;;
     ret (v1, v2)) w = (Ok (verdict, verdict), w) /\
    forall w', CodeGenerator.validate_code self code query w' = (Ok verdict, w').
Proof.
  exists true. split; [reflexivity|]. intros w'. apply validate_code_eq.
Qed.

(** C1. At a fragment with a dynamic import and a file-system deletion,
    [validate_code] returns [True], and [generate], given that text as the
    query, hands it back as approved code: the verdict the claim requires
    (not approved) is not the one the code gives. *)
Theorem validate_code_approves_file_access w :
  CodeGenerator.validate_code CodeGenerator.init file_access_fragment
    "delete all files in /tmp" w = (Ok true, w) /\
  CodeGenerator.generate CodeGenerator.init file_access_fragment None w =
    (Ok (file_access_fragment +:+ String "010" "# TODO: Implement analysis"), w).
Proof. split; reflexivity. Qed.

(** C6, as the claim states it, fails: a query of three spaces is blank
    after trimming, and structuring it raises nothing. *)
Lemma blank_query_is_structured :
  blank_after_trimming "   " = true /\
  ~ exists e w',
      CodeGenerator._process_query CodeGenerator.init "   " PNone empty_world
      = (Raise e, w').
Proof.
  split; [reflexivity|]. intros (e & w' & H). discriminate H.
Qed.

(** C6, amended. For every raw query text, blank after trimming or not,
    structuring succeeds: [_process_query] returns an [AnalysisQuery] whose
    [query_text] is the raw text, untrimmed, and [generate] goes on to
    return a fragment for it. *)
Theorem _process_query_accepts_any_text self query data context w :
  (exists aq,
     CodeGenerator._process_query self query data w = (Ok aq, w) /\
     CodeGenerator.query_text aq = query) /\
  exists code, CodeGenerator.generate self query context w = (Ok code, w).
Proof.
  split.
  - eexists. split; reflexivity.
  - exists (generated query). apply generate_eq.
Qed.

(** ** Turns and the manager's context *)

(** C3, as the claim states it, fails. A turn that brings requirements
    is interrupted by Ctrl-C while the fragment is generated: its outcome is
    a failure, nothing is logged or written, and the requirements are in
    the manager's context all the same. *)
Lemma interrupted_turn_keeps_the_merge :
  exists w',
    interrupted_process_query AtGenerate sample_manager "mean of column A"
      (Some [("requirements", PDict [("alpha", PInt 5)])]) fresh_world
    = (Raise (Exn KeyboardInterrupt ""), w') /\
    context_now sample_manager fresh_world = [] /\
    context_now sample_manager w' =
      [("requirements", PDict [("alpha", PInt 5)])] /\
    qna w' = qna fresh_world /\ log w' = log fresh_world.
Proof.
  eexists. split; [vm_compute; reflexivity|]. repeat split.
Qed.

(** C3, amended. For every turn that does not succeed, the manager's
    context after the turn is its context before the turn updated with the
    context passed to the turn (new keys override old), unless the turn
    was interrupted before the update, which then has not been made: the
    update is the first thing a turn does, and nothing undoes it. That
    holds of a turn that raises (the history could not be stored) and of
    a turn interrupted by Ctrl-C before the result is built, that is,
    before the update, in generation or in execution; such an interrupted
    turn leaves the history file as it was. A turn that is given no
    context, or an empty one, leaves the context as it was. *)
Theorem failed_turn_context self query ctx w :
  let merged :=
    if truthy ctx then dict_update (context_now self w) (default [] ctx)
    else context_now self w in
  (forall e w',
     QueryManager.process_query self query ctx w = (Raise e, w') ->
     context_now self w' = merged) /\
  (forall point,
     exists w',
       interrupted_process_query point self query ctx w
       = (Raise (Exn KeyboardInterrupt ""), w') /\
       qna w' = qna w /\
       context_now self w' =
         match point with
         | AtUpdate => context_now self w
         | _ => merged
         end).
Proof.
  intros merged. split.
  - intros e w' H. pose proof (process_query_cases self query ctx w) as C.
    rewrite H in C. destruct C as (_ & _ & lg & ->).
    change (context_now self (with_log lg (staged self ctx w)))
      with (context_now self (staged self ctx w)).
    rewrite context_now_staged. subst merged.
    now destruct ctx as [[|kv d]|].
  - intros point. subst merged. unfold interrupted_process_query, context_now.
    destruct point; destruct (truthy ctx) eqn:T;
      cbv [logged try_except bind ret raise reraise update_at deref
           CodeGenerator.generate CodeGenerator._process_query
           CodeGenerator.validate_code is_Exception exn_cls negb];
      (eexists; split; [reflexivity|]); cbn [qna heap];
      (split; [reflexivity|]); try reflexivity;
      now rewrite lookup_insert_eq.
Qed.

Lemma failed_turn_context_witness :
  context_now sample_manager
    (snd (QueryManager.process_query sample_manager "mean of column A" None
            corrupt_world))
  = context_now sample_manager corrupt_world /\
  exists w',
    interrupted_process_query AtExecute sample_manager "mean of column A"
      (Some [("alpha", PInt 5)]) fresh_world
    = (Raise (Exn KeyboardInterrupt ""), w') /\
    qna w' = qna fresh_world /\
    context_now sample_manager w' = [("alpha", PInt 5)].
Proof.
  split.
  - apply (proj1 (failed_turn_context sample_manager "mean of column A" None
                    corrupt_world)
             (Exn JSONDecodeError "Expecting value: line 1 column 1 (char 0)")).
    vm_compute. reflexivity.
  - exact (proj2 (failed_turn_context sample_manager "mean of column A"
                    (Some [("alpha", PInt 5)]) fresh_world) AtExecute).
Defined.

Example init_sample_session :
  ChatSession.init false empty_world = (Ok sample_session, session_world).
Proof. reflexivity. Qed.

(** ** Turns of the chat session *)

(** An input that is no command goes to [analyse]. *)
Lemma iteration_query self s w :
  is_builtin s = false ->
  ChatSession.iteration self (ChatSession.Line s) w = ChatSession.analyse self s w.
Proof.
  unfold is_builtin. intros H.
  apply orb_false_elim in H as [H Hhist]. apply orb_false_elim in H as [Hexit Hhelp].
  unfold ChatSession.iteration, ChatSession.guarded at 1. cbn.
  now rewrite Hexit, Hhelp, Hhist.
Qed.





(** ** Built-in commands *)

(** What the input [exit] (in any letter case) does: it saves the
    session's own list with [bulk_update_history] and stops the loop, or,
    when saving fails, reports the error and goes on. *)
Lemma iteration_exit self s w :
  String.eqb (lower s) "exit" = true ->
  exists ctl w',
    ChatSession.iteration self (ChatSession.Line s) w = (Ok (ctl, self), w') /\
    heap w' = heap w /\ ticks w' = ticks w /\ commits w' = commits w /\
    (ctl = ChatSession.Continue /\ qna w' = qna w \/
     ctl = ChatSession.Break /\
     exists old js,
       entries_of (qna w) = Some old /\
       dumps_list (ChatSession.history self) = Dumped js /\
       qna w' = Some (Decodes (JArr (old ++ js)))).
Proof.
  intros Hexit.
  pose proof (bulk_update_history_cases (ChatSession.query_manager self)
                (ChatSession.history self) w) as C.
  unfold ChatSession.iteration, ChatSession.guarded at 1. cbn.
  rewrite Hexit.
  unfold ChatSession.guarded, ChatSession._end_session, ChatSession._save_history,
    ChatSession.on_exception.
  py_unfold.
  destruct (QueryManager.bulk_update_history (ChatSession.query_manager self)
              (ChatSession.history self) w) as [[u|e] w1].
  - destruct C as (old & js & H1 & H2 & ->). cbn.
    eexists; eexists; split; [reflexivity|]; cbn.
    repeat split. right. split; [reflexivity|]. now exists old, js.
  - destruct C as (_ & He & lg & ->). unfold is_Exception in He. rewrite He.
    cbn. rewrite He.
    eexists; eexists; split; [reflexivity|]; cbn.
    repeat split. now left.
Qed.

(** What the inputs [help] and [history] do: they print, and nothing
    else. *)
Lemma iteration_help_history self s w :
  String.eqb (lower s) "exit" = false ->
  String.eqb (lower s) "help" || String.eqb (lower s) "history" = true ->
  exists shown,
    ChatSession.iteration self (ChatSession.Line s) w =
    (Ok (ChatSession.Continue, self), snd (console_print shown w)).
Proof.
  intros Hexit H.
  unfold ChatSession.iteration, ChatSession.guarded at 1. cbn.
  rewrite Hexit. destruct (String.eqb (lower s) "help").
  - exists HelpText. reflexivity.
  - cbn in H. rewrite H. unfold ChatSession.guarded, ChatSession._show_history.
    destruct (ChatSession.history self) as [|x xs].
    + exists NoHistory. reflexivity.
    + exists (HistoryTable (x :: xs)). reflexivity.
Qed.

(** The loop of [ChatSession] is the loop on a console on which every
    text renders. *)
Lemma iteration_renders_all self ev w :
  Console.iteration renders_all self ev w = ChatSession.iteration self ev w.
Proof.
  assert (Hr : forall texts, Console.refused renders_all texts = None).
  { induction texts as [|t texts IH]; [reflexivity|exact IH]. }
  assert (Hon : forall s e w0,
    Console.on_exception renders_all s e w0 = ChatSession.on_exception s e w0).
  { intros s e w0. unfold Console.on_exception, ChatSession.on_exception,
      Console.print. now rewrite Hr. }
  assert (Hg : forall A s (m : Py A) k w0,
    Console.guarded renders_all s m k w0 = ChatSession.guarded s m k w0).
  { intros A s m k w0. unfold Console.guarded, ChatSession.guarded.
    destruct (m w0) as [[a|e] w1]; [reflexivity|apply Hon]. }
  assert (Hk : forall A s (m : Py A) k k' w0,
    (forall a w1, k a w1 = k' a w1) ->
    ChatSession.guarded s m k w0 = ChatSession.guarded s m k' w0).
  { intros A s m k k' w0 H. unfold ChatSession.guarded.
    destruct (m w0) as [[a|e] w1]; [apply H|reflexivity]. }
  unfold Console.iteration, ChatSession.iteration. rewrite Hg.
  apply Hk. intros q w1.
  destruct (String.eqb (lower q) "exit"); [apply Hg|].
  destruct (String.eqb (lower q) "help"); [apply Hg|].
  destruct (String.eqb (lower q) "history").
  - rewrite Hg. unfold Console._show_history, ChatSession._show_history,
      Console.print. now rewrite Hr.
  - unfold Console.analyse, ChatSession.analyse. rewrite Hg.
    apply Hk. intros r w2. rewrite Hg. apply Hk. intros s' w3.
    destruct (ChatSession.git_controller s'); [apply Hg|reflexivity].
Qed.

Section console.

Variable markup : string -> option string.

(** The error line of the loop: it is printed and the loop goes on, or
    the console refuses it and the refusal leaves the loop. *)
Lemma on_exception_cases self e w :
  is_Exception e = true ->
  exists r w',
    Console.on_exception markup self e w = (r, w') /\
    heap w' = heap w /\ ticks w' = ticks w /\ commits w' = commits w /\
    qna w' = qna w /\
    (r = Ok (ChatSession.Continue, self) \/
     exists t msg, markup t = Some msg /\ r = Raise (Exn MarkupError msg)).
Proof.
  intros He. unfold Console.on_exception, Console.print. rewrite He.
  cbn [Console.refused].
  destruct (markup (String "010" "[red]Error:[/red] " +:+ exn_str e))
    as [msg|] eqn:E;
    py_unfold; (eexists; eexists; split; [reflexivity|]); cbn; repeat split.
  - right. eauto.
  - now left.
Qed.

(** What a command does on a console that may refuse a text. *)
Lemma iteration_builtin self s w :
  is_builtin s = true ->
  exists r w',
    Console.iteration markup self (ChatSession.Line s) w = (r, w') /\
    heap w' = heap w /\ ticks w' = ticks w /\ commits w' = commits w /\
    (r = Ok (ChatSession.Continue, self) /\ qna w' = qna w \/
     r = Ok (ChatSession.Break, self) /\ lower s = "exit" /\
     (exists old js,
        entries_of (qna w) = Some old /\
        dumps_list (ChatSession.history self) = Dumped js /\
        qna w' = Some (Decodes (JArr (old ++ js)))) \/
     (exists t msg, markup t = Some msg /\ r = Raise (Exn MarkupError msg)) /\
     qna w' = qna w).
Proof.
  unfold is_builtin. intros H.
  unfold Console.iteration, Console.guarded at 1. cbn.
  destruct (String.eqb (lower s) "exit") eqn:Hexit.
  - pose proof (bulk_update_history_cases (ChatSession.query_manager self)
                  (ChatSession.history self) w) as C.
    unfold Console.guarded, ChatSession._end_session, ChatSession._save_history.
    py_unfold.
    destruct (QueryManager.bulk_update_history (ChatSession.query_manager self)
                (ChatSession.history self) w) as [[u|e] w1].
    + destruct C as (old & js & H1 & H2 & ->). cbn.
      eexists; eexists; split; [reflexivity|]; cbn.
      repeat split. right. left. split; [reflexivity|].
      split; [now apply String.eqb_eq|]. now exists old, js.
    + destruct C as (_ & He & lg & ->). unfold is_Exception in He.
      rewrite He.
      assert (He' : is_Exception e = true) by exact He.
      destruct (on_exception_cases self e
                  (with_log ((ERROR, "Failed to save chat history: " +:+ exn_str e)
                               :: lg) w) He')
        as (r & w' & Hon & Hh & Ht & Hc & Hq & Hr).
      change (let (exn_cls, _) := e in exn_cls) with (exn_cls e).
      change (let (_, exn_str) := e in exn_str) with (exn_str e).
      cbn [heap qna clock ticks git_error commits log console with_log] in *.
      unfold with_log in Hon.
      cbn [heap qna clock ticks git_error commits log console] in Hon.
      rewrite Hon.
      exists r, w'. split; [reflexivity|]. repeat (split; [assumption|]).
      destruct Hr as [->|Hr]; [now left|right; right; now split].
  - cbn [orb] in H. destruct (String.eqb (lower s) "help") eqn:Hhelp.
    + eexists; eexists; split; [reflexivity|]. cbn. repeat split. now left.
    + cbn [orb] in H. rewrite H.
      unfold Console.guarded, Console._show_history, Console.print.
      destruct (ChatSession.history self) as [|x xs] eqn:Hh.
      { eexists; eexists; split; [reflexivity|]. cbn. repeat split. now left. }
      destruct (Console.refused markup (Console.queries (x :: xs)))
        as [msg|] eqn:R.
      * cbv [raise].
        destruct (on_exception_cases self (Exn MarkupError msg) w eq_refl)
          as (r & w' & Hon & Hh' & Ht & Hc & Hq & Hr).
        rewrite Hon. exists r, w'. split; [reflexivity|].
        repeat (split; [assumption|]).
        destruct Hr as [->|Hr]; [now left|right; right; now split].
      * eexists; eexists; split; [reflexivity|]. cbn. repeat split. now left.
Qed.

Lemma iteration_pipeline self s w :
  is_builtin s = false ->
  Console.iteration markup self (ChatSession.Line s) w
  = Console.analyse markup self s w.
Proof.
  unfold is_builtin. intros H.
  apply orb_false_elim in H as [H Hhist]. apply orb_false_elim in H as [Hexit Hhelp].
  unfold Console.iteration, Console.guarded at 1. cbn.
  now rewrite Hexit, Hhelp, Hhist.
Qed.

End console.

(** C9, as the claim states it, fails on its last clause: [HELP] is none
    of the three command names, and it does not proceed into the pipeline
    either; the help text is shown and that is all. *)
Lemma uppercase_help_short_circuits :
  "HELP" <> "exit" /\ "HELP" <> "help" /\ "HELP" <> "history" /\
  Console.iteration sample_markup sample_session (ChatSession.Line "HELP")
    session_world
  = (Ok (ChatSession.Continue, sample_session),
     snd (console_print HelpText session_world)) /\
  Console.iteration sample_markup sample_session (ChatSession.Line "HELP")
    session_world
  <> Console.analyse sample_markup sample_session "HELP" session_world.
Proof.
  split; [discriminate|]. split; [discriminate|]. split; [discriminate|].
  split; [reflexivity|]. vm_compute. discriminate.
Qed.

(** C9, amended. For every input whose lower-cased form is [exit], [help]
    or [history] (the match ignores letter case) the loop body
    short-circuits: no dictionary is allocated or updated, the clock is
    not read and nothing is committed, so [process_query] has not run and
    no entry is made for the input. The history file is unchanged, except
    that a successful [exit] appends the session's own list, the entries
    of earlier turns, to it. The loop body returns the session as it was,
    to go on or, after that [exit], to stop; or else the console has
    refused a text (a query in the table of [history], or the message of
    an error that is being reported) and the [MarkupError] leaves the
    loop. Every other input is handed to [analyse], which calls
    [process_query] on it. *)
Theorem builtin_commands_short_circuit markup self s w :
  (is_builtin s = true ->
   exists r w',
     Console.iteration markup self (ChatSession.Line s) w = (r, w') /\
     heap w' = heap w /\ ticks w' = ticks w /\ commits w' = commits w /\
     (r = Ok (ChatSession.Continue, self) /\ qna w' = qna w \/
      r = Ok (ChatSession.Break, self) /\ lower s = "exit" /\
      (exists old js,
         entries_of (qna w) = Some old /\
         dumps_list (ChatSession.history self) = Dumped js /\
         qna w' = Some (Decodes (JArr (old ++ js)))) \/
      (exists t msg, markup t = Some msg /\ r = Raise (Exn MarkupError msg)) /\
      qna w' = qna w)) /\
  (is_builtin s = false ->
   Console.iteration markup self (ChatSession.Line s) w
   = Console.analyse markup self s w).
Proof.
  split; [apply iteration_builtin|apply iteration_pipeline].
Qed.

Lemma builtin_commands_short_circuit_witness :
  (is_builtin "History" = true /\
   exists r w',
     Console.iteration sample_markup marked_session (ChatSession.Line "History")
       session_world = (r, w') /\
     heap w' = heap session_world /\ ticks w' = ticks session_world /\
     commits w' = commits session_world /\
     (r = Ok (ChatSession.Continue, marked_session) /\
      qna w' = qna session_world \/
      r = Ok (ChatSession.Break, marked_session) /\ lower "History" = "exit" /\
      (exists old js,
         entries_of (qna session_world) = Some old /\
         dumps_list (ChatSession.history marked_session) = Dumped js /\
         qna w' = Some (Decodes (JArr (old ++ js)))) \/
      (exists t msg,
         sample_markup t = Some msg /\ r = Raise (Exn MarkupError msg)) /\
      qna w' = qna session_world)) /\
  (is_builtin "mean of column A" = false /\
   Console.iteration sample_markup sample_session
     (ChatSession.Line "mean of column A") session_world
   = Console.analyse sample_markup sample_session "mean of column A"
       session_world).
Proof.
  split; (split; [reflexivity|]).
  - apply (proj1 (builtin_commands_short_circuit sample_markup marked_session
                    "History" session_world)). reflexivity.
  - apply (proj2 (builtin_commands_short_circuit sample_markup sample_session
                    "mean of column A" session_world)). reflexivity.
Defined.

(** A line typed with white space round the word: the prompt strips it,
    and the session ends. *)
Example typed_exit_ends_the_session :
  typed "  Exit " = ChatSession.Line "Exit" /\
  exists w',
    Console.iteration sample_markup sample_session (typed "  Exit ")
      session_world
    = (Ok (ChatSession.Break, sample_session), w').
Proof.
  split; [reflexivity|]. eexists. vm_compute. reflexivity.
Qed.

(** [history] after a turn on the query [a[/b]]: the table is refused,
    the line that reports it is refused too, and that error leaves the
    loop, with nothing changed but the log. *)
Example history_of_a_marked_query :
  exists w',
    Console.iteration sample_markup marked_session (ChatSession.Line "history")
      session_world
    = (Raise (Exn MarkupError
                "closing tag '[/b]' at position 32 doesn't match any open tag"),
       w') /\
    qna w' = qna session_world /\ heap w' = heap session_world /\
    console w' = console session_world.
Proof.
  eexists. split; [vm_compute; reflexivity|]. repeat split.
Qed.

(** ** Appending to the history file *)

Lemma bulk_update_history_ok self old entries js w :
  entries_of (qna w) = Some old ->
  dumps_list entries = Dumped js ->
  QueryManager.bulk_update_history self entries w =
  (Ok tt, with_qna (Some (Decodes (JArr (old ++ js)))) w).
Proof.
  intros Hold Hjs.
  pose proof (bulk_update_history_cases self entries w) as C.
  destruct (QueryManager.bulk_update_history self entries w) as [[[]|e] w'].
  - destruct C as (old' & js' & H1 & H2 & ->). congruence.
  - destruct C as ([H|(_ & c & H)] & _); congruence.
Qed.

Lemma _update_history_ok self r old cj w :
  entries_of (qna w) = Some old ->
  dumps (context_in w r) = Dumped cj ->
  QueryManager._update_history self r w =
  (Ok tt, with_qna (Some (Decodes (JArr (old ++ [written r cj])))) w).
Proof.
  intros Hold Hcj.
  pose proof (_update_history_cases self r w) as C.
  destruct (QueryManager._update_history self r w) as [[[]|e] w'].
  - destruct C as (old' & cj' & H1 & H2 & ->). congruence.
  - destruct C as ([H|(_ & c & H)] & _); congruence.
Qed.

(** Appending results one at a time. *)
Lemma update_each_ok self rs : forall cjs old w,
  entries_of (qna w) = Some old ->
  Forall2 (fun r cj => dumps (context_in w r) = Dumped cj) rs cjs ->
  exists w',
    update_each self rs w = (Ok tt, w') /\
    heap w' = heap w /\
    entries_of (qna w') = Some (old ++ zip_with written rs cjs).
Proof.
  induction rs as [|r rs IH]; intros cjs old w Hold Hall.
  - inversion Hall; subst. exists w. cbn. now rewrite app_nil_r.
  - inversion Hall as [|r' cj rs' cjs' Hr Hrest]; subst.
    cbn [update_each]. unfold bind at 1.
    rewrite (_update_history_ok self r old cj w Hold Hr).
    destruct (IH cjs' (old ++ [written r cj])
                (with_qna (Some (Decodes (JArr (old ++ [written r cj])))) w))
      as (w' & H1 & H2 & H3); [reflexivity|exact Hrest|].
    exists w'. split; [exact H1|]. split; [exact H2|].
    rewrite H3. cbn [zip_with]. now rewrite <- app_assoc.
Qed.

Section pyval_induction.
Variable P : pyval -> Prop.
Hypothesis Hnone : P PNone.
Hypothesis Hbool : forall b, P (PBool b).
Hypothesis Hint : forall n, P (PInt n).
Hypothesis Hstr : forall s, P (PStr s).
Hypothesis Hlist : forall xs, Forall P xs -> P (PList xs).
Hypothesis Htuple : forall xs, P (PTuple xs).
Hypothesis Hdict : forall kvs, Forall (fun kv => P (snd kv)) kvs -> P (PDict kvs).
Hypothesis Hobject : forall cls shape, P (PObject cls shape).

Fixpoint pyval_nested_ind (v : pyval) : P v :=
  match v with
  | PNone => Hnone
  | PBool b => Hbool b
  | PInt n => Hint n
  | PStr s => Hstr s
  | PList xs =>
      Hlist xs ((fix go (l : list pyval) : Forall P l :=
                   match l with
                   | [] => List.Forall_nil P
                   | x :: l' => List.Forall_cons P x l' (pyval_nested_ind x) (go l')
                   end) xs)
  | PTuple xs => Htuple xs
  | PDict kvs =>
      Hdict kvs ((fix go (l : list (string * pyval))
                    : Forall (fun kv => P (snd kv)) l :=
                    match l with
                    | [] => List.Forall_nil _
                    | kv :: l' =>
                        List.Forall_cons _ kv l' (pyval_nested_ind (snd kv)) (go l')
                    end) kvs)
  | PObject cls shape => Hobject cls shape
  end.
End pyval_induction.

(** A value made of what JSON has is written, and read back as it is. *)
Lemma dumps_json_shaped v :
  json_shaped v = true -> exists j, dumps v = Dumped j /\ loads j = v.
Proof.
  induction v as [|b|n|s|xs IH|xs|kvs IH|cls shape] using pyval_nested_ind;
    cbn [json_shaped]; intros H; try discriminate H.
  - now exists JNull.
  - now exists (JBool b).
  - now exists (JNum n).
  - now exists (JStr s).
  - rewrite dumps_PList.
    assert (exists js, dumps_list xs = Dumped js /\ map loads js = xs)
      as (js & Hd & Hl).
    { induction xs as [|x xs IHxs]; [now exists []|].
      cbn [forallb] in H. apply andb_prop in H as [Hx Hxs].
      inversion IH as [|? ? IHx IHrest]; subst.
      destruct (IHx Hx) as (j & Hj & Hlj).
      destruct (IHxs IHrest Hxs) as (js & Hjs & Hljs).
      exists (j :: js). cbn [dumps_list]. rewrite Hj, Hjs. cbn.
      now rewrite Hlj, Hljs. }
    exists (JArr js). rewrite Hd. cbn. now rewrite Hl.
  - rewrite dumps_PDict.
    assert (exists js, dumps_items kvs = Dumped js /\
                       map (fun kv => (fst kv, loads (snd kv))) js = kvs)
      as (js & Hd & Hl).
    { induction kvs as [|[k x] kvs IHkvs]; [now exists []|].
      cbn [forallb snd] in H. apply andb_prop in H as [Hx Hxs].
      inversion IH as [|? ? IHx IHrest]; subst. cbn [snd] in IHx.
      destruct (IHx Hx) as (j & Hj & Hlj).
      destruct (IHkvs IHrest Hxs) as (js & Hjs & Hljs).
      exists ((k, j) :: js). cbn [dumps_items]. rewrite Hj, Hjs. cbn.
      now rewrite Hlj, Hljs. }
    exists (JObj js). rewrite Hd. cbn. now rewrite Hl.
Qed.

Lemma dumps_list_json_shaped xs :
  Forall (fun e => json_shaped e = true) xs ->
  exists js, dumps_list xs = Dumped js /\ map loads js = xs.
Proof.
  induction 1 as [|x xs Hx _ IH]; [now exists []|].
  destruct (dumps_json_shaped x Hx) as (j & Hj & Hlj).
  destruct IH as (js & Hjs & Hljs).
  exists (j :: js). cbn [dumps_list]. rewrite Hj, Hjs. cbn.
  now rewrite Hlj, Hljs.
Qed.

(** A file that reads as a list is absent or holds an array, and the
    other way round. *)
Lemma load_history_list prior w :
  QueryManager.load_history w = (Ok (PList prior), w) ->
  exists old, entries_of (qna w) = Some old /\ prior = map loads old.
Proof.
  unfold QueryManager.load_history.
  destruct (qna w) as [[j|msg]|]; intros H; inversion H as [Hj].
  - destruct j; try discriminate Hj. cbn in Hj. inversion Hj. now eexists.
  - now exists [].
Qed.

Lemma load_history_entries xs w :
  entries_of (qna w) = Some xs ->
  QueryManager.load_history w = (Ok (PList (map loads xs)), w).
Proof.
  intros H. unfold QueryManager.load_history.
  destruct (qna w) as [[j|msg]|]; cbn in H.
  - destruct j; try discriminate. now inversion H.
  - discriminate.
  - now inversion H.
Qed.

(** C4, as the claim states it, fails. An entry whose context holds a
    tuple (the shape of a dataset) is appended to an empty history, in
    bulk or by the turn itself, and what is then read from the file is
    not that entry: the tuple has come back as a list. *)
Lemma tuple_entry_is_read_back_changed :
  (exists w' read,
     QueryManager.load_history fresh_world = (Ok (PList []), fresh_world) /\
     QueryManager.bulk_update_history sample_manager [shape_entry] fresh_world
     = (Ok tt, w') /\
     QueryManager.load_history w' = (Ok (PList [read]), w') /\
     read <> shape_entry) /\
  (exists r w' read,
     QueryManager.process_query sample_manager "shape of the data"
       (Some [("shape", PTuple [PInt 3; PInt 2])]) fresh_world = (Ok r, w') /\
     QueryManager.load_history w' = (Ok (PList [read]), w') /\
     read <> entry_of r (context_in w' r)).
Proof.
  split.
  - eexists. eexists. split; [reflexivity|]. split; [vm_compute; reflexivity|].
    split; [vm_compute; reflexivity|]. discriminate.
  - eexists. eexists. eexists. split; [vm_compute; reflexivity|].
    split; [vm_compute; reflexivity|]. vm_compute. discriminate.
Qed.

(** C4, amended. For every history file that reads as a list of prior
    entries (the file is absent, or holds a JSON array) and every list of
    new entries made of what JSON has ([None], booleans, integers of at
    most 4300 digits, strings, lists, dictionaries), appending the entries
    in bulk, or the results
    one at a time, and then reading the file yields the prior entries
    followed by exactly the new ones, in their order. The sequence number
    of an entry is its position: new entry [k] is at position (number of
    prior entries + [k]), and the prior entries keep theirs. Entries that
    [json.dumps] can serialise but that are not made of what JSON has
    (they hold a tuple) are appended as well, and are read back as JSON
    gives them, the tuples as lists. *)
Theorem history_round_trip self prior w :
  QueryManager.load_history w = (Ok (PList prior), w) ->
  (forall entries,
     Forall (fun e => json_shaped e = true) entries ->
     exists w',
       QueryManager.bulk_update_history self entries w = (Ok tt, w') /\
       QueryManager.load_history w' = (Ok (PList (prior ++ entries)), w') /\
       (forall k, k < length prior -> (prior ++ entries) !! k = prior !! k) /\
       (forall k, (prior ++ entries) !! (length prior + k) = entries !! k)) /\
  (forall rs,
     Forall (fun r => json_shaped (context_in w r) = true) rs ->
     let entries := map (fun r => entry_of r (context_in w r)) rs in
     exists w',
       update_each self rs w = (Ok tt, w') /\
       QueryManager.load_history w' = (Ok (PList (prior ++ entries)), w') /\
       (forall k, k < length prior -> (prior ++ entries) !! k = prior !! k) /\
       (forall k, (prior ++ entries) !! (length prior + k) = entries !! k)) /\
  (forall entries js,
     dumps_list entries = Dumped js ->
     exists w',
       QueryManager.bulk_update_history self entries w = (Ok tt, w') /\
       QueryManager.load_history w' = (Ok (PList (prior ++ map loads js)), w') /\
       Forall2 (fun e j => dumps e = Dumped j) entries js).
Proof.
  intros Hload. destruct (load_history_list prior w Hload) as (old & Hold & ->).
  assert (Hpos : forall (A : Type) (xs ys : list A),
    (forall k, k < length xs -> (xs ++ ys) !! k = xs !! k) /\
    (forall k, (xs ++ ys) !! (length xs + k) = ys !! k)).
  { intros A xs ys. split.
    - intros k Hk. now apply lookup_app_l.
    - intros k. rewrite lookup_app_r by lia. f_equal. lia. }
  split; [|split].
  - intros entries Hshaped.
    destruct (dumps_list_json_shaped entries Hshaped) as (js & Hjs & Hl).
    exists (with_qna (Some (Decodes (JArr (old ++ js)))) w).
    split; [now apply bulk_update_history_ok|].
    split; [|apply Hpos].
    rewrite (load_history_entries (old ++ js)) by reflexivity.
    now rewrite map_app, Hl.
  - intros rs Hshaped entries.
    assert (exists cjs,
      Forall2 (fun r cj => dumps (context_in w r) = Dumped cj) rs cjs /\
      map loads (zip_with written rs cjs) = entries) as (cjs & Hall & Hl).
    { subst entries. induction Hshaped as [|r rs Hr _ IH]; [now exists []|].
      destruct (dumps_json_shaped _ Hr) as (cj & Hcj & Hlcj).
      destruct IH as (cjs & Hall & Hl).
      exists (cj :: cjs). split; [now constructor|].
      cbn [zip_with map]. rewrite Hl. f_equal.
      unfold written, entry_of. cbn. now rewrite Hlcj. }
    destruct (update_each_ok self rs cjs old w Hold Hall) as (w' & H1 & _ & H3).
    exists w'. split; [exact H1|]. split; [|apply Hpos].
    rewrite (load_history_entries _ _ H3). now rewrite map_app, Hl.
  - intros entries js Hjs.
    exists (with_qna (Some (Decodes (JArr (old ++ js)))) w).
    split; [now apply bulk_update_history_ok|].
    split.
    + rewrite (load_history_entries (old ++ js)) by reflexivity.
      now rewrite map_app.
    + clear -Hjs. revert js Hjs.
      induction entries as [|x entries IH]; intros js H; cbn in H.
      * inversion H. constructor.
      * destruct (dumps x) as [j|] eqn:E; [|discriminate].
        destruct (dumps_list entries) as [js'|]; [|discriminate].
        inversion H; subst. constructor; [assumption|now apply IH].
Qed.

Lemma history_round_trip_witness :
  QueryManager.load_history fresh_world = (Ok (PList []), fresh_world) /\
  (exists w',
     QueryManager.bulk_update_history sample_manager [sample_entry; sample_entry]
       fresh_world = (Ok tt, w') /\
     QueryManager.load_history w' =
       (Ok (PList ([] ++ [sample_entry; sample_entry])), w')) /\
  (exists w',
     update_each sample_manager [sample_result; sample_result] fresh_world
     = (Ok tt, w') /\
     QueryManager.load_history w' =
       (Ok (PList ([] ++ [entry_of sample_result (PDict []);
                          entry_of sample_result (PDict [])])), w')).
Proof.
  split; [reflexivity|]. split.
  - destruct (proj1 (history_round_trip sample_manager [] fresh_world eq_refl)
                [sample_entry; sample_entry]) as (w' & H1 & H2 & _).
    + repeat constructor.
    + exists w'. split; [exact H1|exact H2].
  - destruct (proj1 (proj2 (history_round_trip sample_manager [] fresh_world
                              eq_refl))
                [sample_result; sample_result]) as (w' & H1 & H2 & _).
    + repeat constructor.
    + exists w'. split; [exact H1|exact H2].
Defined.






(** ** The context recorded in a result *)

Lemma dump_Ref n objs l :
  Sharing.dump (S n) objs (Sharing.Ref l) =
  match objs !! l with
  | None => Sharing.Circular
  | Some o => Sharing.read_map JObj (dump_items n objs o)
  end.
Proof. reflexivity. Qed.

Lemma dump_items_cons n objs k x o :
  dump_items n objs ((k, x) :: o) =
  match Sharing.dump n objs x with
  | Sharing.Read j => Sharing.read_map (cons (k, j)) (dump_items n objs o)
  | Sharing.Unserialisable c => Sharing.Unserialisable c
  | Sharing.Circular => Sharing.Circular
  end.
Proof. reflexivity. Qed.

(** What is read with some fuel is read with more. *)
Lemma dump_mono n : forall objs v j,
  Sharing.dump n objs v = Sharing.Read j ->
  Sharing.dump (S n) objs v = Sharing.Read j.
Proof.
  induction n as [|n IH]; intros objs v j H.
  - destruct v as [p|l]; [exact H|discriminate H].
  - destruct v as [p|l]; [exact H|].
    rewrite dump_Ref in *. destruct (objs !! l) as [o|]; [|discriminate H].
    assert (Hit : forall kvs, dump_items n objs o = Sharing.Read kvs ->
                              dump_items (S n) objs o = Sharing.Read kvs).
    { clear H. induction o as [|[k x] o IHo]; intros kvs H; [exact H|].
      rewrite !dump_items_cons in *.
      destruct (Sharing.dump n objs x) as [jx| |] eqn:E; try discriminate H.
      rewrite (IH _ _ _ E).
      destruct (dump_items n objs o) as [kvs'| |]; try discriminate H.
      now rewrite (IHo kvs' eq_refl). }
    destruct (dump_items n objs o) as [kvs| |]; try discriminate H.
    now rewrite (Hit kvs eq_refl).
Qed.

Lemma dump_mono_le n m objs v j :
  n <= m ->
  Sharing.dump n objs v = Sharing.Read j ->
  Sharing.dump m objs v = Sharing.Read j.
Proof.
  induction 1 as [|m _ IH]; [auto|]. intros H. now apply dump_mono, IH.
Qed.

Lemma jsize_item k jx kvs :
  In (k, jx) kvs -> jsize jx < jsize (JObj kvs).
Proof.
  cbn [jsize]. induction kvs as [|[k' j'] kvs IH]; [intros []|].
  unfold list_sum in *.
  intros [E|Hin]; cbn [map fold_right snd].
  - inversion E; subst. lia.
  - specialize (IH Hin). lia.
Qed.

Lemma dump_items_In n objs o kvs :
  dump_items n objs o = Sharing.Read kvs ->
  Forall2 (fun kx kj => fst kx = fst kj /\
                        Sharing.dump n objs (snd kx) = Sharing.Read (snd kj)) o kvs.
Proof.
  revert kvs. induction o as [|[k x] o IH]; intros kvs H;
    [|rewrite dump_items_cons in H].
  - inversion H. constructor.
  - destruct (Sharing.dump n objs x) as [jx| |] eqn:E; try discriminate H.
    destruct (dump_items n objs o) as [kvs'| |]; try discriminate H.
    inversion H; subst. constructor; [now split|now apply IH].
Qed.

Lemma dump_items_Forall2 n objs o kvs :
  Forall2 (fun kx kj => fst kx = fst kj /\
                        Sharing.dump n objs (snd kx) = Sharing.Read (snd kj)) o kvs ->
  dump_items n objs o = Sharing.Read kvs.
Proof.
  induction 1 as [|[k x] [k' j] o kvs [Hk Hd] _ IH]; [reflexivity|].
  cbn in Hk, Hd. subst k'. rewrite dump_items_cons. now rewrite Hd, IH.
Qed.

(** Two stores that agree on every object but the one at [c], which reads
    as the document [J] in the first. *)
Section frame.
Variables (objs objs' : gmap loc Sharing.object) (c : loc).
Hypothesis Hframe : forall l o, l <> c -> objs !! l = Some o -> objs' !! l = Some o.
Variables (N : nat) (J : json).
Hypothesis HJ : Sharing.dump N objs (Sharing.Ref c) = Sharing.Read J.

(** What reads as a smaller document than [J] does not pass through [c],
    and reads the same in the second store. *)
Lemma dump_frame n : forall v j,
  Sharing.dump n objs v = Sharing.Read j ->
  jsize j < jsize J ->
  Sharing.dump n objs' v = Sharing.Read j.
Proof.
  induction n as [|n IH]; intros v j H Hlt.
  - destruct v as [p|l]; [exact H|discriminate H].
  - destruct v as [p|l]; [exact H|].
    destruct (decide (l = c)) as [->|Hl].
    + exfalso.
      pose proof (dump_mono_le (S n) (S n + N) _ _ _ ltac:(lia) H) as H1.
      pose proof (dump_mono_le N (S n + N) _ _ _ ltac:(lia) HJ) as H2.
      rewrite H1 in H2. inversion H2; subst. lia.
    + rewrite dump_Ref in *.
      destruct (objs !! l) as [o|] eqn:Ho; [|discriminate H].
      rewrite (Hframe l o Hl Ho).
      destruct (dump_items n objs o) as [kvs| |] eqn:Hi; try discriminate H.
      cbn in H. inversion H; subst j.
      rewrite (dump_items_Forall2 n objs' o kvs); [reflexivity|].
      apply dump_items_In in Hi.
      assert (Hall : forall kj, In kj kvs -> jsize (snd kj) < jsize J).
      { intros [k jx] Hin. pose proof (jsize_item k jx kvs Hin). cbn [snd]. lia. }
      clear H Ho Hlt. induction Hi as [|kx kj o kvs [Hk Hd] _ IHi]; [constructor|].
      constructor.
      * split; [exact Hk|]. apply IH; [exact Hd|]. apply Hall. now left.
      * apply IHi. intros kj' Hin. apply Hall. now right.
Qed.

(** A dictionary with the bindings of the one at [c] reads the same in the
    second store. *)
Lemma dump_copy_frame l o n j :
  l <> c ->
  objs !! l = Some o -> objs !! c = Some o ->
  Sharing.dump n objs (Sharing.Ref l) = Sharing.Read j ->
  Sharing.dump n objs' (Sharing.Ref l) = Sharing.Read j.
Proof.
  intros Hl Ho Hc H. destruct n as [|n]; [discriminate H|].
  assert (Hcj : Sharing.dump (S n) objs (Sharing.Ref c) = Sharing.Read j).
  { rewrite dump_Ref in *. rewrite Hc. now rewrite Ho in H. }
  assert (HjJ : j = J).
  { pose proof (dump_mono_le (S n) (S n + N) _ _ _ ltac:(lia) Hcj) as H1.
    pose proof (dump_mono_le N (S n + N) _ _ _ ltac:(lia) HJ) as H2.
    rewrite H1 in H2. now inversion H2. }
  clear Hcj. rewrite dump_Ref in *. rewrite Ho in H. rewrite (Hframe l o Hl Ho).
  destruct (dump_items n objs o) as [kvs| |] eqn:Hi; try discriminate H.
  cbn in H. inversion H as [Hkvs].
  rewrite (dump_items_Forall2 n objs' o kvs); [reflexivity|].
  apply dump_items_In in Hi.
  assert (Hall : forall kj, In kj kvs -> jsize (snd kj) < jsize J).
  { intros [k jx] Hin. rewrite <- HjJ, <- Hkvs. now apply (jsize_item k). }
  clear H Ho Hc Hkvs HjJ.
  induction Hi as [|kx kj o' kvs' [Hk Hd] _ IHi]; [constructor|].
  constructor.
  * split; [exact Hk|]. apply dump_frame; [exact Hd|]. apply Hall. now left.
  * apply IHi. intros kj' Hin. apply Hall. now right.
Qed.
End frame.

Lemma save_entry old r cj w :
  QueryManager.save_history (PList (map loads old ++ [entry_of r (loads cj)])) w =
  (Ok tt, with_qna (Some (Decodes (JArr (old ++ [written r cj])))) w).
Proof.
  unfold QueryManager.save_history. rewrite dumps_history.
  assert (dumps_list [entry_of r (loads cj)] = Dumped [written r cj]) as ->.
  { unfold entry_of, written. cbn [dumps_list]. rewrite dumps_PDict.
    cbn [dumps_items dumps]. now rewrite dumps_loads. }
  reflexivity.
Qed.

(** What [_update_history] does on shared dictionaries, case by case. *)
Lemma shared_update_history_cases self r st :
  match Sharing._update_history self r st with
  | (Ok _, st') =>
      exists old cj,
        entries_of (qna (Sharing.outside st)) = Some old /\
        context_document st r = Sharing.Read cj /\
        st' = Sharing.mkState (Sharing.objects st)
                (with_qna (Some (Decodes (JArr (old ++ [written r cj]))))
                          (Sharing.outside st))
  | (Raise e, st') =>
      Sharing.objects st' = Sharing.objects st /\
      qna (Sharing.outside st') = qna (Sharing.outside st)
  end.
Proof.
  destruct st as [objs w].
  unfold Sharing._update_history, Sharing.logged, Sharing.sbind at 1.
  unfold Sharing.lift at 1. cbn [Sharing.outside Sharing.objects].
  unfold QueryManager.load_history.
  assert (Hlist : forall old,
    entries_of (qna w) = Some old ->
    match
      Sharing.sbind (Sharing.dump_context (QueryResult.context r))
        (fun cj => Sharing.lift
           (QueryManager.save_history
              (PList (map loads old ++ [entry_of r (loads cj)]))))
        (Sharing.mkState objs w)
    with
    | (Ok _, st') =>
        exists cj,
          context_document (Sharing.mkState objs w) r = Sharing.Read cj /\
          st' = Sharing.mkState objs
                  (with_qna (Some (Decodes (JArr (old ++ [written r cj])))) w)
    | (Raise e, st') => is_Exception e = true /\ st' = Sharing.mkState objs w
    end).
  { intros old _. unfold Sharing.sbind, Sharing.dump_context, context_document.
    destruct (match QueryResult.context r with
              | Some l => Sharing.dump_at (Sharing.mkState objs w) l
              | None => Sharing.Read JNull
              end) as [cj|cls|].
    - unfold Sharing.lift. cbn [Sharing.outside Sharing.objects].
      rewrite save_entry. now exists cj.
    - now split.
    - now split. }
  destruct (qna w) as [[j|msg]|] eqn:Hq.
  - destruct j as [| | | |xs|kvs]; cbn [loads];
      try (unfold Sharing.lift, QueryManager.no_attribute, raise;
           cbn; now rewrite Hq).
    specialize (Hlist xs eq_refl).
    match goal with
    | H : match ?m with _ => _ end |- _ => destruct m as [[u|e] st']
    end.
    + destruct Hlist as (cj & H1 & ->). now exists xs, cj.
    + destruct Hlist as (He & ->). rewrite He. cbn. now rewrite Hq.
  - cbn. now rewrite Hq.
  - specialize (Hlist [] eq_refl). cbn [map app] in Hlist |- *.
    match goal with
    | H : match ?m with _ => _ end |- _ => destruct m as [[u|e] st']
    end.
    + destruct Hlist as (cj & H1 & ->). now exists [], cj.
    + destruct Hlist as (He & ->). rewrite He. cbn. now rewrite Hq.
Qed.

Lemma shared_process_query_eq self query ctx st :
  Sharing.process_query self query ctx st =
  match Sharing._update_history self (shared_result self query ctx st)
          (copied self ctx st) with
  | (Ok _, st') => (Ok (shared_result self query ctx st), st')
  | (Raise e, st') =>
      if is_Exception e
      then (Raise e,
            snd (Sharing.lift (logger_error ("Query processing failed: "
                                             +:+ exn_str e)) st'))
      else (Raise e, st')
  end.
Proof.
  destruct st as [objs w]. destruct w as [h f ck tk g cm lg co].
  unfold Sharing.process_query, copied, copied_objects, shared_result, generated.
  unfold merged_objects.
  destruct (Sharing.truthy ctx);
    cbv [Sharing.logged Sharing.sbind Sharing.lift Sharing.update_at
         Sharing.sret Sharing.contents Sharing._create_result Sharing.copy
         CodeGenerator.generate CodeGenerator._process_query
         CodeGenerator.validate_code QueryManager._execute_analysis
         Sharing.objects Sharing.outside negb snd
         logged try_except bind ret raise reraise logger_error logger_record
         now_isoformat is_Exception exn_cls exn_str
         heap qna clock ticks git_error commits log console];
    match goal with
    | |- context [Sharing._update_history ?s ?r ?st0] =>
        destruct (Sharing._update_history s r st0) as [[u|e] st']
    end; reflexivity.
Qed.

(** What a turn does on shared dictionaries, case by case. *)
Lemma shared_process_query_cases self query ctx st :
  match Sharing.process_query self query ctx st with
  | (Ok r, st1) =>
      r = shared_result self query ctx st /\
      Sharing.objects st1 = copied_objects self ctx st /\
      exists old cj,
        entries_of (qna (Sharing.outside st)) = Some old /\
        context_document st1 r = Sharing.Read cj /\
        qna (Sharing.outside st1) = Some (Decodes (JArr (old ++ [written r cj])))
  | (Raise e, st1) =>
      Sharing.objects st1 = copied_objects self ctx st /\
      qna (Sharing.outside st1) = qna (Sharing.outside st)
  end.
Proof.
  rewrite shared_process_query_eq.
  pose proof (shared_update_history_cases self (shared_result self query ctx st)
                (copied self ctx st)) as C.
  destruct (Sharing._update_history self (shared_result self query ctx st)
              (copied self ctx st)) as [[u|e] st'].
  - destruct C as (old & cj & H1 & H2 & ->). split; [reflexivity|].
    split; [reflexivity|]. exists old, cj. split; [exact H1|].
    split; [exact H2|reflexivity].
  - destruct C as (H1 & H2). destruct (is_Exception e); cbn; now split.
Qed.

Lemma merged_objects_other self ctx st l :
  l <> QueryManager.context self ->
  merged_objects self ctx st !! l = Sharing.objects st !! l.
Proof.
  intros Hl. unfold merged_objects. destruct (Sharing.truthy ctx); [|reflexivity].
  now rewrite lookup_insert_ne.
Qed.

Lemma merged_objects_context self ctx st :
  is_Some (Sharing.objects st !! QueryManager.context self) ->
  is_Some (merged_objects self ctx st !! QueryManager.context self).
Proof.
  intros H. unfold merged_objects. destruct (Sharing.truthy ctx); [|exact H].
  rewrite lookup_insert_eq. eauto.
Qed.

(** The copy is a new object, different from the manager's dictionary. *)
Lemma copy_is_new self ctx st :
  is_Some (Sharing.objects st !! QueryManager.context self) ->
  fresh (dom (merged_objects self ctx st)) <> QueryManager.context self /\
  Sharing.objects st !! fresh (dom (merged_objects self ctx st)) = None.
Proof.
  intros H. pose proof (is_fresh (dom (merged_objects self ctx st))) as F.
  assert (Hne : fresh (dom (merged_objects self ctx st)) <> QueryManager.context self).
  { intros E. rewrite E in F. apply F, elem_of_dom.
    now apply merged_objects_context. }
  split; [exact Hne|].
  rewrite <- (merged_objects_other self ctx st _ Hne).
  now apply not_elem_of_dom.
Qed.

Lemma copied_objects_other self ctx st l o :
  l <> QueryManager.context self ->
  Sharing.objects st !! l = Some o ->
  copied_objects self ctx st !! l = Some o.
Proof.
  intros Hl Ho. unfold copied_objects.
  rewrite <- (merged_objects_other self ctx st l Hl) in Ho.
  rewrite lookup_insert_ne; [exact Ho|].
  intros E. pose proof (is_fresh (dom (merged_objects self ctx st))) as F.
  rewrite E in F. apply F, elem_of_dom. eauto.
Qed.

Lemma copied_objects_context self ctx st :
  is_Some (Sharing.objects st !! QueryManager.context self) ->
  is_Some (copied_objects self ctx st !! QueryManager.context self).
Proof.
  intros H. unfold copied_objects.
  rewrite lookup_insert_ne by (now apply copy_is_new).
  now apply merged_objects_context.
Qed.

Lemma shared_perform_kept self st1 st2 entries a :
  shared_kept self st1 st2 entries ->
  shared_kept self st1 (Sharing.perform self st2 a) entries.
Proof.
  intros (Hobj & Hctx & more & Hfile).
  destruct a as [query ctx|other]; cbn [Sharing.perform].
  - pose proof (shared_process_query_cases self query ctx st2) as C.
    destruct (Sharing.process_query self query ctx st2) as [[r|e] st3]; cbn [snd].
    + destruct C as (_ & Ho & old & cj & H1 & _ & H3).
      split; [|split].
      * intros l o Hl H. rewrite Ho. apply copied_objects_other; auto.
      * rewrite Ho. now apply copied_objects_context.
      * exists (more ++ [written r cj]). rewrite H3. cbn [entries_of].
        rewrite Hfile in H1. inversion H1; subst. now rewrite app_assoc.
    + destruct C as (Ho & Hq). split; [|split].
      * intros l o Hl H. rewrite Ho. apply copied_objects_other; auto.
      * rewrite Ho. now apply copied_objects_context.
      * exists more. now rewrite Hq.
  - unfold Sharing.update_at. cbn [snd Sharing.objects Sharing.outside].
    split; [|split].
    + intros l o Hl H. cbn [Sharing.objects].
      rewrite lookup_insert_ne; [auto|]. intros E. now apply Hl.
    + cbn [Sharing.objects]. rewrite lookup_insert_eq. eauto.
    + now exists more.
Qed.

Lemma shared_perform_all_kept self st1 entries acts : forall st2,
  shared_kept self st1 st2 entries ->
  shared_kept self st1 (Sharing.perform_all self acts st2) entries.
Proof.
  induction acts as [|a acts IH]; intros st2 H; [exact H|].
  cbn [Sharing.perform_all fold_left]. apply IH. now apply shared_perform_kept.
Qed.

Lemma shared_kept_size self st1 st2 entries :
  is_Some (Sharing.objects st1 !! QueryManager.context self) ->
  shared_kept self st1 st2 entries ->
  size (Sharing.objects st1) <= size (Sharing.objects st2).
Proof.
  intros Hc (Hobj & Hctx & _).
  rewrite <- !size_dom. apply subseteq_size.
  intros l Hl. apply elem_of_dom in Hl as [o Ho]. apply elem_of_dom.
  destruct (decide (l = QueryManager.context self)) as [->|Hne]; [exact Hctx|].
  exists o. now apply Hobj.
Qed.

(** C10, as the claim states it, fails. A caller passes its requirements,
    a dictionary, in the context of a turn; the turn succeeds and the
    context of its result reads [{"requirements": {"alpha": 5}}]. The
    manager's context holds the same dictionary of requirements, and a
    change made in it there, [context["requirements"]["alpha"] = 7], is
    read in the context of the earlier result as well. The entry in the
    history file is as it was written. *)
Lemma nested_change_reaches_the_result :
  exists r st1 l,
    Sharing.process_query sample_manager "mean of column A"
      (Some [("requirements", Sharing.Ref 5)]) nested_state = (Ok r, st1) /\
    QueryResult.context r = Some l /\
    l <> QueryManager.context sample_manager /\
    Sharing.objects st1 !! QueryManager.context sample_manager
    = Some [("requirements", Sharing.Ref 5)] /\
    Sharing.dump_at st1 l
    = Sharing.Read (JObj [("requirements", JObj [("alpha", JNum 5)])]) /\
    let st2 := snd (Sharing.setitem 5 "alpha" (Sharing.Plain (PInt 7)) st1) in
    Sharing.dump_at st2 l
    = Sharing.Read (JObj [("requirements", JObj [("alpha", JNum 7)])]) /\
    qna (Sharing.outside st2) = qna (Sharing.outside st1) /\
    entries_of (qna (Sharing.outside st2))
    = Some [written r (JObj [("requirements", JObj [("alpha", JNum 5)])])].
Proof.
  eexists. eexists. eexists. split; [vm_compute; reflexivity|].
  split; [reflexivity|]. split; [vm_compute; discriminate|].
  split; [vm_compute; reflexivity|].
  split; [vm_compute; reflexivity|]. split; [vm_compute; reflexivity|].
  split; reflexivity.
Qed.

(** C10, amended. The context of a result is a shallow copy of the
    manager's context, taken when the result is created: a new dictionary
    object with the bindings the manager's dictionary has at that moment,
    its values being the same objects; the entry written to the history
    file holds what is read in it then. Whatever further turns
    (successful or failed) and updates of the manager's dictionary come
    afterwards, they change no dictionary object but the manager's own,
    so the copy keeps its bindings, the dictionaries it shares keep
    theirs, what is read in the result's context stays the same, and the
    entry stays where it is in the file, unchanged. (A change made inside
    a dictionary that the context holds is another matter: it is seen
    through every result that shares the dictionary.) *)
Theorem result_context_is_a_shallow_copy self query ctx st r st1 :
  is_Some (Sharing.objects st !! QueryManager.context self) ->
  Sharing.process_query self query ctx st = (Ok r, st1) ->
  exists l o old cj,
    QueryResult.context r = Some l /\
    l <> QueryManager.context self /\
    Sharing.objects st !! l = None /\
    Sharing.objects st1 !! l = Some o /\
    Sharing.objects st1 !! QueryManager.context self = Some o /\
    Sharing.dump_at st1 l = Sharing.Read cj /\
    entries_of (qna (Sharing.outside st1)) = Some (old ++ [written r cj]) /\
    forall acts,
      let st2 := Sharing.perform_all self acts st1 in
      (forall l' o', l' <> QueryManager.context self ->
                     Sharing.objects st1 !! l' = Some o' ->
                     Sharing.objects st2 !! l' = Some o') /\
      Sharing.dump_at st2 l = Sharing.Read cj /\
      exists more,
        entries_of (qna (Sharing.outside st2))
        = Some ((old ++ [written r cj]) ++ more).
Proof.
  intros Hctx H. pose proof (shared_process_query_cases self query ctx st) as C.
  rewrite H in C. destruct C as (-> & Ho & old & cj & H1 & H2 & H3).
  destruct (copy_is_new self ctx st Hctx) as (Hne & Hnew).
  destruct (merged_objects_context self ctx st Hctx) as (o & Hm).
  set (l := fresh (dom (merged_objects self ctx st))) in *.
  assert (Hl : Sharing.objects st1 !! l = Some o).
  { rewrite Ho. unfold copied_objects. fold l. rewrite lookup_insert_eq.
    apply (f_equal (fun x => Some (default [] x))) in Hm. exact Hm. }
  assert (Hc : Sharing.objects st1 !! QueryManager.context self = Some o).
  { rewrite Ho. unfold copied_objects. fold l.
    now rewrite lookup_insert_ne. }
  exists l, o, old, cj.
  split; [reflexivity|]. split; [exact Hne|]. split; [exact Hnew|].
  split; [exact Hl|]. split; [exact Hc|]. split; [exact H2|].
  split; [now rewrite H3|].
  intros acts st2.
  assert (K : shared_kept self st1 st2
                (old ++ [written (shared_result self query ctx st) cj])).
  { apply shared_perform_all_kept. split; [auto|]. split; [eauto|].
    exists []. rewrite H3. cbn [entries_of]. now rewrite app_nil_r. }
  pose proof (shared_kept_size self st1 st2 _ ltac:(eauto) K) as Hsize.
  destruct K as (K1 & K2 & K3).
  split; [exact K1|]. split; [|exact K3].
  unfold Sharing.dump_at.
  apply (dump_mono_le (S (size (Sharing.objects st1)))); [lia|].
  assert (H2' : Sharing.dump (S (size (Sharing.objects st1))) (Sharing.objects st1)
                  (Sharing.Ref l) = Sharing.Read cj) by exact H2.
  assert (Hcj : Sharing.dump (S (size (Sharing.objects st1))) (Sharing.objects st1)
                  (Sharing.Ref (QueryManager.context self)) = Sharing.Read cj).
  { rewrite dump_Ref in H2' |- *. rewrite Hc. now rewrite Hl in H2'. }
  apply (dump_copy_frame (Sharing.objects st1) (Sharing.objects st2)
           (QueryManager.context self) K1 _ cj Hcj l o _ cj Hne Hl Hc).
  exact H2'.
Qed.

Lemma result_context_is_a_shallow_copy_witness :
  is_Some (Sharing.objects nested_state !! QueryManager.context sample_manager) /\
  exists l o old cj,
    QueryResult.context
      (shared_result sample_manager "mean of column A"
         (Some [("requirements", Sharing.Ref 5)]) nested_state) = Some l /\
    l <> QueryManager.context sample_manager /\
    Sharing.objects nested_state !! l = None /\
    Sharing.objects
      (snd (Sharing.process_query sample_manager "mean of column A"
              (Some [("requirements", Sharing.Ref 5)]) nested_state)) !! l
    = Some o /\
    Sharing.objects
      (snd (Sharing.process_query sample_manager "mean of column A"
              (Some [("requirements", Sharing.Ref 5)]) nested_state))
      !! QueryManager.context sample_manager = Some o /\
    Sharing.dump_at
      (snd (Sharing.process_query sample_manager "mean of column A"
              (Some [("requirements", Sharing.Ref 5)]) nested_state)) l
    = Sharing.Read cj /\
    entries_of
      (qna (Sharing.outside
              (snd (Sharing.process_query sample_manager "mean of column A"
                      (Some [("requirements", Sharing.Ref 5)]) nested_state))))
    = Some (old ++
        [written (shared_result sample_manager "mean of column A"
                    (Some [("requirements", Sharing.Ref 5)]) nested_state) cj]) /\
    forall acts,
      let st2 :=
        Sharing.perform_all sample_manager acts
          (snd (Sharing.process_query sample_manager "mean of column A"
                  (Some [("requirements", Sharing.Ref 5)]) nested_state)) in
      (forall l' o', l' <> QueryManager.context sample_manager ->
         Sharing.objects
           (snd (Sharing.process_query sample_manager "mean of column A"
                   (Some [("requirements", Sharing.Ref 5)]) nested_state)) !! l'
         = Some o' ->
         Sharing.objects st2 !! l' = Some o') /\
      Sharing.dump_at st2 l = Sharing.Read cj /\
      exists more,
        entries_of (qna (Sharing.outside st2))
        = Some ((old ++
            [written (shared_result sample_manager "mean of column A"
                        (Some [("requirements", Sharing.Ref 5)]) nested_state) cj])
                ++ more).
Proof.
  assert (Hs : is_Some (Sharing.objects nested_state
                        !! QueryManager.context sample_manager)).
  { exists []. reflexivity. }
  split; [exact Hs|].
  apply (result_context_is_a_shallow_copy sample_manager "mean of column A"
           (Some [("requirements", Sharing.Ref 5)]) nested_state _ _ Hs).
  vm_compute. reflexivity.
Defined.

(** A turn, then an update of the manager's dictionary and another turn:
    the manager's context reads the new value, the context of the first
    result the old one. *)
Example copy_outlives_update :
  let st1 := snd (Sharing.process_query sample_manager "mean of column A"
                    (Some [("alpha", Sharing.Plain (PInt 5))]) nested_state) in
  let st2 := Sharing.perform_all sample_manager
               [Sharing.Update [("alpha", Sharing.Plain (PInt 7))];
                Sharing.Turn "median of column A" None] st1 in
  exists l,
    QueryResult.context
      (shared_result sample_manager "mean of column A"
         (Some [("alpha", Sharing.Plain (PInt 5))]) nested_state) = Some l /\
    Sharing.dump_at st2 l = Sharing.Read (JObj [("alpha", JNum 5)]) /\
    Sharing.dump_at st2 (QueryManager.context sample_manager)
    = Sharing.Read (JObj [("alpha", JNum 7)]).
Proof.
  eexists. split; [reflexivity|]. split; vm_compute; reflexivity.
Qed.

(** ** The two embeddings of a turn *)

(** On dictionaries none of whose values is held by reference, a turn
    over shared dictionaries is the turn of [QueryManager]: the same
    result or the same exception, the same file, clock and log, and the
    same dictionary objects. *)

Lemma plain_set d k v :
  Sharing.set (plain d) k (Sharing.Plain v) = plain (dict_set d k v).
Proof.
  induction d as [|[k' v'] d IH]; [reflexivity|].
  cbn [plain map Sharing.set dict_set fst snd].
  destruct (String.eqb k' k); [reflexivity|].
  cbn [map fst snd]. f_equal. exact IH.
Qed.

Lemma plain_update other : forall d,
  Sharing.update (plain d) (plain other) = plain (dict_update d other).
Proof.
  induction other as [|[k v] other IH]; intros d; [reflexivity|].
  unfold Sharing.update, dict_update in *. cbn [plain map fold_left fst snd].
  rewrite plain_set. apply IH.
Qed.

Lemma view_plain d : Sharing.view (plain d) = d.
Proof.
  induction d as [|[k v] d IH]; [reflexivity|].
  cbn [plain map Sharing.view fst snd]. f_equal. exact IH.
Qed.

Lemma dump_items_plain n objs d :
  dump_items n objs (plain d) =
  match dumps_items d with
  | Dumped kvs => Sharing.Read kvs
  | NotSerializable c => Sharing.Unserialisable c
  end.
Proof.
  induction d as [|[k v] d IH]; [reflexivity|].
  change (plain ((k, v) :: d)) with ((k, Sharing.Plain v) :: plain d).
  rewrite dump_items_cons. cbn [dumps_items].
  replace (Sharing.dump n objs (Sharing.Plain v))
    with (match dumps v with
          | Dumped j => Sharing.Read j
          | NotSerializable c => Sharing.Unserialisable c
          end) by now destruct n.
  destruct (dumps v) as [j|c]; [|reflexivity].
  rewrite IH. now destruct (dumps_items d).
Qed.

Lemma plain_lookup (h : gmap loc dict) l :
  default [] ((plain <$> h) !! l) = plain (default [] (h !! l)).
Proof. rewrite lookup_fmap. now destruct (h !! l). Qed.

Lemma tree_process_query_eq self query ctx w :
  QueryManager.process_query self query ctx w =
  match QueryManager._update_history self (result_of self query ctx w)
          (staged self ctx w) with
  | (Ok _, w') => (Ok (result_of self query ctx w), w')
  | (Raise e, w') =>
      if is_Exception e
      then (Raise e, with_log ((ERROR, "Query processing failed: "
                                       +:+ exn_str e) :: log w') w')
      else (Raise e, w')
  end.
Proof.
  unfold QueryManager.process_query, staged, result_of, snapshot_loc, snapshot,
    merged_heap, context_now, generated.
  unfold CodeGenerator.generate, CodeGenerator._process_query,
    CodeGenerator.validate_code, QueryManager._execute_analysis,
    QueryManager._create_result.
  destruct (truthy ctx); py_unfold; cbn [negb heap qna clock ticks git_error
                                          commits log console];
    match goal with
    | |- context [QueryManager._update_history ?s ?r ?w3] =>
        destruct (QueryManager._update_history s r w3) as [[u|[c m]] w4]
    end; try reflexivity; destruct c; reflexivity.
Qed.

Lemma plain_update_history self r w h0 l :
  QueryResult.context r = Some l ->
  is_Some (heap w !! l) ->
  Sharing._update_history self r
    (Sharing.mkState (plain <$> heap w) (reheap h0 w)) =
  match QueryManager._update_history self r w with
  | (res, w') => (res, Sharing.mkState (plain <$> heap w) (reheap h0 w'))
  end.
Proof.
  intros Hr [d Hd].
  destruct w as [h f ck tk g cm lg co]. cbn [heap] in *.
  unfold Sharing._update_history, QueryManager._update_history.
  unfold Sharing.logged, logged, try_except, Sharing.sbind at 1, bind at 1.
  unfold Sharing.lift at 1. unfold QueryManager.load_history.
  cbn [Sharing.outside Sharing.objects reheap qna].
  rewrite Hr.
  assert (Hdump : Sharing.dump_at
            (Sharing.mkState (plain <$> h)
               (reheap h0 (mkWorld h f ck tk g cm lg co))) l =
          match dumps (PDict d) with
          | Dumped j => Sharing.Read j
          | NotSerializable c => Sharing.Unserialisable c
          end).
  { unfold Sharing.dump_at. cbn [Sharing.objects]. rewrite dump_Ref.
    rewrite lookup_fmap, Hd. cbn [fmap option_fmap option_map].
    rewrite dump_items_plain, dumps_PDict. now destruct (dumps_items d). }
  assert (Hentry : forall ctxv,
    dumps_list [PDict [("query", PStr (QueryResult.query r));
                       ("code", PStr (QueryResult.code r));
                       ("timestamp", PStr (QueryResult.timestamp r));
                       ("context", ctxv)]] =
    dumped_map (fun cj => [written r cj]) (dumps ctxv)).
  { intros ctxv. cbn [dumps_list]. rewrite dumps_PDict. cbn [dumps_items dumps].
    unfold written. now destruct (dumps ctxv). }
  assert (Hlist : forall old,
    Sharing.sbind (Sharing.dump_context (Some l))
      (fun cj => Sharing.lift
         (QueryManager.save_history
            (PList (map loads old ++ [entry_of r (loads cj)]))))
      (Sharing.mkState (plain <$> h) (reheap h0 (mkWorld h f ck tk g cm lg co)))
    =
    match
      (ctx <- QueryManager.context_value (Some l) ;;
       history <- QueryManager.append (PList (map loads old))
         (PDict [("query", PStr (QueryResult.query r));
                 ("code", PStr (QueryResult.code r));
                 ("timestamp", PStr (QueryResult.timestamp r));
                 ("context", ctx)]) ;;
       QueryManager.save_history history) (mkWorld h f ck tk g cm lg co)
    with
    | (res, w') => (res, Sharing.mkState (plain <$> h) (reheap h0 w'))
    end).
  { intros old. unfold Sharing.sbind, Sharing.dump_context. rewrite Hdump.
    cbv [QueryManager.context_value QueryManager.append deref bind ret heap].
    replace (@lookup loc (list (string * pyval)) (gmap loc dict) _ l h)
      with (Some d) by (symmetry; exact Hd).
    cbn [from_option id].
    unfold QueryManager.save_history at 2. rewrite dumps_history, Hentry.
    destruct (dumps (PDict d)) as [cj|c]; cbn.
    - unfold Sharing.lift. cbn [Sharing.outside Sharing.objects].
      rewrite save_entry. reflexivity.
    - reflexivity. }
  destruct f as [[j|msg]|].
  - destruct j as [| | | |xs|kvs]; cbn [loads]; try reflexivity.
    rewrite Hlist.
    match goal with
    | |- context [bind ?m ?k ?w0] => destruct (bind m k w0) as [[u|e] w1]
    end; [reflexivity|].
    destruct (is_Exception e); reflexivity.
  - reflexivity.
  - change (@nil pyval) with (map loads []) at 1. rewrite Hlist.
    cbn [map].
    match goal with
    | |- context [bind ?m ?k ?w0] => destruct (bind m k w0) as [[u|e] w1]
    end; [reflexivity|].
    destruct (is_Exception e); reflexivity.
Qed.

Lemma plain_truthy ctx : Sharing.truthy (option_map plain ctx) = truthy ctx.
Proof. now destruct ctx as [[|kv d]|]. Qed.

Lemma plain_default ctx :
  default [] (option_map plain ctx) = plain (default [] ctx).
Proof. now destruct ctx. Qed.

Lemma plain_merged self ctx w :
  merged_objects self (option_map plain ctx) (plain_state w)
  = plain <$> merged_heap self ctx w.
Proof.
  unfold merged_objects, merged_heap, plain_state, context_now.
  cbn [Sharing.objects]. rewrite plain_truthy.
  destruct (truthy ctx); [|reflexivity].
  rewrite fmap_insert, plain_lookup, plain_default, plain_update. reflexivity.
Qed.

Lemma plain_copied self ctx w :
  copied self (option_map plain ctx) (plain_state w)
  = Sharing.mkState (plain <$> heap (staged self ctx w))
                    (reheap (heap w) (staged self ctx w)).
Proof.
  unfold copied, copied_objects, staged, snapshot_loc, snapshot.
  rewrite plain_merged. cbn [heap].
  rewrite fmap_insert, dom_fmap_L, plain_lookup. reflexivity.
Qed.

Lemma plain_result self query ctx w :
  shared_result self query (option_map plain ctx) (plain_state w)
  = result_of self query ctx w.
Proof.
  unfold shared_result, result_of, snapshot_loc.
  rewrite plain_merged, dom_fmap_L. reflexivity.
Qed.

Lemma _update_history_heap self r w :
  heap (snd (QueryManager._update_history self r w)) = heap w.
Proof.
  pose proof (_update_history_cases self r w) as C.
  destruct (QueryManager._update_history self r w) as [[u|e] w']; cbn [snd].
  - now destruct C as (old & cj & _ & _ & ->).
  - now destruct C as (_ & _ & lg & ->).
Qed.

Lemma process_query_heap self query ctx w :
  heap (snd (QueryManager.process_query self query ctx w))
  = heap (staged self ctx w).
Proof.
  pose proof (process_query_cases self query ctx w) as C.
  destruct (QueryManager.process_query self query ctx w) as [[r|e] w']; cbn [snd].
  - now destruct C as (_ & old & cj & _ & _ & ->).
  - now destruct C as (_ & _ & lg & ->).
Qed.

(** The turn of [QueryManager] is the turn over shared dictionaries, where
    nothing is shared. *)
Lemma plain_process_query self query ctx w :
  Sharing.process_query self query (option_map plain ctx) (plain_state w) =
  match QueryManager.process_query self query ctx w with
  | (res, w') => (res, Sharing.mkState (plain <$> heap w') (reheap (heap w) w'))
  end.
Proof.
  pose proof (process_query_heap self query ctx w) as Hheap.
  rewrite shared_process_query_eq, plain_result, plain_copied.
  rewrite tree_process_query_eq in *.
  rewrite (plain_update_history self (result_of self query ctx w)
             (staged self ctx w) (heap w) (snapshot_loc self ctx w));
    [|reflexivity|unfold staged; cbn [heap]; rewrite lookup_insert_eq; eauto].
  pose proof (_update_history_heap self (result_of self query ctx w)
                (staged self ctx w)) as Hh.
  destruct (QueryManager._update_history self (result_of self query ctx w)
              (staged self ctx w)) as [[u|e] w1]; cbn [snd] in *.
  - now rewrite Hh.
  - destruct (is_Exception e); cbn [snd] in *.
    + unfold Sharing.lift, logger_error, logger_record, with_log, reheap.
      cbn. now rewrite Hh.
    + now rewrite Hh.
Qed.

(** * Further properties *)

(** ** Dictionaries *)

Lemma dict_get_set d k v k' :
  dict_get (dict_set d k v) k' =
  if String.eqb k k' then Some v else dict_get d k'.
Proof.
  induction d as [|[k0 v0] d IH]; cbn [dict_set dict_get].
  - reflexivity.
  - destruct (String.eqb k0 k) eqn:E0; cbn [dict_get].
    + apply String.eqb_eq in E0. subst k0.
      now destruct (String.eqb k k').
    + destruct (String.eqb k0 k') eqn:E1.
      * apply String.eqb_eq in E1. subst k0.
        rewrite String.eqb_sym in E0. now rewrite E0.
      * exact IH.
Qed.

Lemma dict_get_absent (d : dict) k :
  ~ In k (map fst d) -> dict_get d k = None.
Proof.
  induction d as [|[k0 v0] d IH]; intros H; cbn [dict_get]; [reflexivity|].
  destruct (String.eqb k0 k) eqn:E.
  - apply String.eqb_eq in E. subst. exfalso. apply H. now left.
  - apply IH. intros Hin. apply H. now right.
Qed.

(** [update]: the other dictionary's keys win, the rest stay. *)
Lemma dict_get_update other : forall d k,
  List.NoDup (map fst other) ->
  dict_get (dict_update d other) k =
  match dict_get other k with
  | Some v => Some v
  | None => dict_get d k
  end.
Proof.
  induction other as [|[k0 v0] other IH]; intros d k Hnd; [reflexivity|].
  inversion Hnd as [|? ? Hnotin Hnd']; subst.
  change (dict_update d ((k0, v0) :: other))
    with (dict_update (dict_set d k0 v0) other).
  rewrite IH by assumption. cbn [dict_get].
  rewrite dict_get_set.
  destruct (String.eqb k0 k) eqn:E; [|reflexivity].
  apply String.eqb_eq in E. subst k0.
  now rewrite dict_get_absent.
Qed.

(** ** More on a turn of the manager *)

Lemma snapshot_eq self ctx w :
  snapshot self ctx w = dict_update (context_now self w) (default [] ctx).
Proof.
  unfold snapshot, merged_heap, context_now.
  destruct ctx as [[|kv d]|]; cbn [truthy default]; try reflexivity.
  now rewrite lookup_insert_eq.
Qed.

Lemma context_now_after self query ctx w :
  context_now self (snd (QueryManager.process_query self query ctx w)) =
  dict_update (context_now self w) (default [] ctx).
Proof.
  pose proof (process_query_cases self query ctx w) as C.
  destruct (QueryManager.process_query self query ctx w) as [[r|e] w']; cbn [snd].
  - destruct C as (_ & old & cj & _ & _ & ->).
    change (context_now self (with_qna _ (staged self ctx w)))
      with (context_now self (staged self ctx w)).
    apply context_now_staged.
  - destruct C as (_ & _ & lg & ->).
    change (context_now self (with_log lg (staged self ctx w)))
      with (context_now self (staged self ctx w)).
    apply context_now_staged.
Qed.

(** X1. A turn succeeds exactly when the history file is absent or holds a
    JSON array and the manager's context, once the turn's context is
    merged into it, can be serialised. The query text plays no part. *)
Theorem process_query_succeeds_iff self query ctx w :
  (exists r w', QueryManager.process_query self query ctx w = (Ok r, w')) <->
  (exists old cj,
     entries_of (qna w) = Some old /\
     dumps (PDict (dict_update (context_now self w) (default [] ctx)))
     = Dumped cj).
Proof.
  pose proof (process_query_cases self query ctx w) as C.
  rewrite snapshot_eq in C.
  destruct (QueryManager.process_query self query ctx w) as [[r|e] w'].
  - destruct C as (_ & old & cj & H1 & H2 & _). split.
    + intros _. now exists old, cj.
    + intros _. now exists r, w'.
  - destruct C as (H & _). split.
    + intros (r & w'' & Habs). discriminate Habs.
    + intros (old & cj & H1 & H2).
      destruct H as [H|(_ & c & H)]; congruence.
Qed.

(** X2. What a successful turn returns depends on the query and the clock
    alone: the query itself, the query followed by the comment line as
    code, the placeholder as result, and the clock reading at the call as
    timestamp. Neither the context nor the dataset in it reaches the
    code. *)
Theorem turn_result_fields self query ctx w r w' :
  QueryManager.process_query self query ctx w = (Ok r, w') ->
  QueryResult.query r = query /\
  QueryResult.code r = query +:+ String "010" "# TODO: Implement analysis" /\
  QueryResult.result r = PStr "Analysis results placeholder" /\
  QueryResult.timestamp r = clock w (ticks w) /\
  ticks w' = S (ticks w) /\ clock w' = clock w.
Proof.
  intros H. pose proof (process_query_cases self query ctx w) as C.
  rewrite H in C. destruct C as (-> & old & cj & _ & _ & ->).
  repeat split.
Qed.

Lemma turn_result_fields_witness :
  exists r w',
    QueryManager.process_query sample_manager "mean of column A"
      (Some [("data", PStr "a.csv")]) fresh_world = (Ok r, w') /\
    QueryResult.code r
    = "mean of column A" +:+ String "010" "# TODO: Implement analysis" /\
    QueryResult.timestamp r = "2024-05-01T10:00:00.000001".
Proof.
  eexists. eexists. split; [vm_compute; reflexivity|].
  split.
  - eapply (turn_result_fields sample_manager "mean of column A"
              (Some [("data", PStr "a.csv")]) fresh_world).
    vm_compute. reflexivity.
  - eapply (turn_result_fields sample_manager "mean of column A"
              (Some [("data", PStr "a.csv")]) fresh_world).
    vm_compute. reflexivity.
Defined.

(** X3. After every turn, successful or not, a key of the manager's context
    has the value the turn's context gives it, and otherwise the value it
    had before the turn: contexts accumulate over the turns, later values
    overriding earlier ones. *)
Theorem turn_merges_context self query ctx w k :
  List.NoDup (map fst (default [] ctx)) ->
  dict_get (context_now self (snd (QueryManager.process_query self query ctx w))) k =
  match dict_get (default [] ctx) k with
  | Some v => Some v
  | None => dict_get (context_now self w) k
  end.
Proof.
  intros Hnd. rewrite context_now_after. now apply dict_get_update.
Qed.

Lemma turn_merges_context_witness :
  dict_get
    (context_now sample_manager
       (snd (QueryManager.process_query sample_manager "median of column A"
               (Some [("alpha", PInt 7)])
               (snd (QueryManager.process_query sample_manager "mean of column A"
                       (Some [("alpha", PInt 5); ("paired", PBool true)])
                       fresh_world))))) "paired"
  = Some (PBool true).
Proof.
  rewrite (turn_merges_context sample_manager "median of column A"
             (Some [("alpha", PInt 7)])).
  - cbn [default dict_get String.eqb Ascii.eqb Bool.eqb].
    rewrite (turn_merges_context sample_manager "mean of column A"
               (Some [("alpha", PInt 5); ("paired", PBool true)])).
    + reflexivity.
    + cbn. repeat constructor; cbn; intuition discriminate.
  - cbn. repeat constructor. cbn. intuition.
Defined.

(** X4. Once the manager's context holds a value that [json.dumps] cannot
    serialise (a loaded dataset, say), the turn that brought it fails with
    [TypeError] although the history file is in order, the file stays as
    it was, and every later turn that brings no context fails in the same
    way: the value stays in the context. *)
Theorem unserialisable_context_fails_every_turn self query ctx w old c :
  entries_of (qna w) = Some old ->
  dumps (PDict (dict_update (context_now self w) (default [] ctx)))
  = NotSerializable c ->
  exists e w',
    QueryManager.process_query self query ctx w = (Raise e, w') /\
    exn_cls e = TypeError /\ qna w' = qna w /\
    forall query',
      exists e' w'',
        QueryManager.process_query self query' None w' = (Raise e', w'') /\
        exn_cls e' = TypeError /\ qna w'' = qna w.
Proof.
  assert (Hone : forall q cx w0,
    entries_of (qna w0) = Some old ->
    dumps (PDict (dict_update (context_now self w0) (default [] cx)))
    = NotSerializable c ->
    exists e w',
      QueryManager.process_query self q cx w0 = (Raise e, w') /\
      exn_cls e = TypeError /\ qna w' = qna w0 /\
      context_now self w' = dict_update (context_now self w0) (default [] cx)).
  { intros q cx w0 Hold Hc.
    pose proof (context_now_after self q cx w0) as Hctx.
    pose proof (process_query_cases self q cx w0) as C.
    rewrite snapshot_eq in C.
    destruct (QueryManager.process_query self q cx w0) as [[r|e] w'].
    - destruct C as (_ & old' & cj & _ & H2 & _). congruence.
    - destruct C as ([H|(Ht & _)] & _ & lg & ->); [congruence|].
      exists e, (with_log lg (staged self cx w0)).
      repeat split; try assumption. }
  intros Hold Hc.
  destruct (Hone query ctx w Hold Hc) as (e & w' & H1 & H2 & H3 & H4).
  exists e, w'. repeat split; try assumption.
  intros query'.
  destruct (Hone query' None w') as (e' & w'' & K1 & K2 & K3 & _).
  - now rewrite H3.
  - cbn [default dict_update fold_left]. now rewrite H4.
  - exists e', w''. repeat split; try assumption. now rewrite K3.
Qed.

Lemma unserialisable_context_fails_every_turn_witness :
  exists e w',
    QueryManager.process_query sample_manager "mean of column A"
      (Some [("data", sample_frame)]) fresh_world = (Raise e, w') /\
    exn_cls e = TypeError /\ qna w' = qna fresh_world /\
    forall query',
      exists e' w'',
        QueryManager.process_query sample_manager query' None w' = (Raise e', w'') /\
        exn_cls e' = TypeError /\ qna w'' = qna fresh_world.
Proof.
  apply (unserialisable_context_fails_every_turn sample_manager "mean of column A"
           (Some [("data", sample_frame)]) fresh_world [] "DataFrame");
    reflexivity.
Defined.

(** ** Whole chat sessions *)

(** A turn of the chat session after [process_query] returned. *)
Lemma analyse_after_success self s w r w1 :
  QueryManager.process_query (ChatSession.query_manager self) s None w = (Ok r, w1) ->
  exists w',
    ChatSession.analyse self s w =
    (Ok (ChatSession.Continue,
         with_history self (ChatSession.history self
                            ++ [session_entry r (clock w1 (ticks w1))])), w') /\
    qna w' = qna w1 /\ heap w' = heap w1 /\ clock w' = clock w1 /\
    git_error w' = git_error w1 /\
    commits w' =
      (if ChatSession.git_controller self then
         match git_error w1 with
         | None => ("Analysis: " +:+ s) :: commits w1
         | Some _ => commits w1
         end
       else commits w1).
Proof.
  intros H. unfold ChatSession.analyse, ChatSession.guarded at 1. rewrite H.
  unfold ChatSession.guarded at 1, ChatSession._handle_result, with_history,
    session_entry.
  py_unfold. cbn [ChatSession.git_controller].
  destruct (ChatSession.git_controller self).
  - unfold ChatSession.guarded, GitController.commit_changes,
      GitController.run_git_commit, ChatSession.on_exception.
    py_unfold. cbn [git_error].
    destruct (git_error w1); cbn; (eexists; split; [reflexivity|]); cbn; auto 10.
  - eexists; split; [reflexivity|]; cbn; auto 10.
Qed.

(** A turn of the chat session after [process_query] raised. *)
Lemma analyse_after_failure self s w e w1 :
  QueryManager.process_query (ChatSession.query_manager self) s None w
  = (Raise e, w1) ->
  exists w',
    ChatSession.analyse self s w = (Ok (ChatSession.Continue, self), w') /\
    qna w' = qna w1 /\ heap w' = heap w1 /\ commits w' = commits w1.
Proof.
  intros H.
  pose proof (process_query_cases (ChatSession.query_manager self) s None w) as C.
  rewrite H in C. destruct C as (_ & He & _).
  unfold ChatSession.analyse, ChatSession.guarded at 1. rewrite H.
  unfold ChatSession.on_exception. rewrite He. py_unfold.
  eexists; split; [reflexivity|]; cbn; auto.
Qed.








(** X8. The auto-commit follows the turn and never touches the history. A
    turn on an input that is no command makes exactly one commit, with
    the message [Analysis: ] and the query, when [process_query] returned,
    the session has a git controller and git works; in every other case it
    makes none. Whether git works or not, the history file is as
    [process_query] left it. *)
Theorem auto_commit_follows_success self s w :
  is_builtin s = false ->
  commits (snd (ChatSession.iteration self (ChatSession.Line s) w)) =
    match QueryManager.process_query (ChatSession.query_manager self) s None w with
    | (Ok _, _) =>
        if ChatSession.git_controller self then
          match git_error w with
          | None => ("Analysis: " +:+ s) :: commits w
          | Some _ => commits w
          end
        else commits w
    | (Raise _, _) => commits w
    end /\
  qna (snd (ChatSession.iteration self (ChatSession.Line s) w)) =
  qna (snd (QueryManager.process_query (ChatSession.query_manager self) s None w)).
Proof.
  intros Hb. rewrite (iteration_query _ _ _ Hb).
  pose proof (process_query_cases (ChatSession.query_manager self) s None w) as C.
  destruct (QueryManager.process_query (ChatSession.query_manager self) s None w)
    as [[r|e] w1] eqn:Hp.
  - destruct (analyse_after_success self s w r w1 Hp)
      as (w' & Ha & Hq & _ & _ & _ & Hc).
    rewrite Ha. cbn [snd]. split; [|exact Hq].
    destruct C as (_ & old & cj & _ & _ & ->). exact Hc.
  - destruct (analyse_after_failure self s w e w1 Hp) as (w' & Ha & Hq & _ & Hc).
    rewrite Ha. cbn [snd]. split; [|exact Hq].
    destruct C as (_ & _ & lg & ->). exact Hc.
Qed.

Lemma auto_commit_follows_success_witness :
  is_builtin "mean of column A" = false /\
  commits (snd (ChatSession.iteration committing_session
                  (ChatSession.Line "mean of column A") session_world))
  = ["Analysis: mean of column A"].
Proof.
  split; [reflexivity|].
  apply (auto_commit_follows_success committing_session "mean of column A"
           session_world). reflexivity.
Defined.

(** ** The configuration file *)

Ltac cfg_unfold :=
  cbv [ConfigHandler.get_config ConfigHandler.set_config
       ConfigHandler.reset_config ConfigHandler.clogged ConfigHandler.cbind
       ConfigHandler.cret ConfigHandler.craise ConfigHandler.cnote
       ConfigHandler._save_config ConfigHandler.setitem
       is_Exception exn_cls exn_str] in *.

Lemma default_dumps self :
  dumps (ConfigHandler._create_default_config self) = Dumped (default_document self).
Proof. reflexivity. Qed.

Lemma default_loads self :
  loads (default_document self) = ConfigHandler._create_default_config self.
Proof. reflexivity. Qed.

Lemma dumps_items_loads kvs : dumps_items (loads_items kvs) = Dumped kvs.
Proof.
  induction kvs as [|[k x] kvs IH]; [reflexivity|].
  cbn [loads_items map dumps_items fst snd].
  rewrite dumps_loads. fold (loads_items kvs). now rewrite IH.
Qed.

(** Setting a key of a configuration read from a file, and serialising. *)
Lemma dumps_items_set kvs key value :
  dumps_items (dict_set (loads_items kvs) key value) =
  dumped_map (obj_set kvs key) (dumps value).
Proof.
  induction kvs as [|[k x] kvs IH].
  - cbn. now destruct (dumps value).
  - cbn [loads_items map dict_set obj_set fst snd].
    fold (loads_items kvs).
    destruct (String.eqb k key).
    + cbn [dumps_items]. rewrite dumps_items_loads.
      now destruct (dumps value).
    + cbn [dumps_items]. rewrite dumps_loads, IH.
      now destruct (dumps value).
Qed.

Lemma loads_items_set kvs key jv :
  loads_items (obj_set kvs key jv) = dict_set (loads_items kvs) key (loads jv).
Proof.
  induction kvs as [|[k x] kvs IH]; [reflexivity|].
  cbn [loads_items map dict_set obj_set fst snd].
  fold (loads_items kvs).
  destruct (String.eqb k key); cbn [map fst snd]; [reflexivity|].
  fold (loads_items (obj_set kvs key jv)). now rewrite IH.
Qed.

(** What [get_config] does, case by case. When it returns, the
    configuration is true as a Python value and the file holds it: the
    document the file held when that is true; the defaults, which it
    writes to the file, when there is no file or the document is false as
    a Python value (the empty object that project initialisation writes,
    an empty array or string, zero, null). When it raises, the file could
    not be decoded and is left alone. *)
Lemma get_config_cases self d :
  match ConfigHandler.get_config self d with
  | (Ok c, d') =>
      truth c = true /\
      (exists j, ConfigHandler.feathers d' = Some (Decodes j) /\ loads j = c) /\
      match ConfigHandler.feathers d with
      | Some (Decodes j0) =>
          if truth (loads j0) then c = loads j0 /\ d' = d
          else c = ConfigHandler._create_default_config self
      | _ => c = ConfigHandler._create_default_config self
      end
  | (Raise e, d') =>
      exists msg,
        ConfigHandler.feathers d = Some (Malformed msg) /\
        ConfigHandler.feathers d' = ConfigHandler.feathers d
  end.
Proof.
  destruct d as [[[j0|msg]|] n]; cfg_unfold; cbn [ConfigHandler.feathers].
  - destruct (truth (loads j0)) eqn:T; cbn.
    + split; [exact T|]. split; [now exists j0|]. now split.
    + split; [reflexivity|]. split; [now exists (default_document self)|].
      reflexivity.
  - cbn. now exists msg.
  - cbn. split; [reflexivity|]. split; [now exists (default_document self)|].
    reflexivity.
Qed.

(** X10. [get_config] is idempotent: once it has returned, calling it
    again returns the same configuration and changes nothing, also when
    the first call had to write the defaults. *)
Theorem get_config_idempotent self d c d' :
  ConfigHandler.get_config self d = (Ok c, d') ->
  ConfigHandler.get_config self d' = (Ok c, d').
Proof.
  intros H. pose proof (get_config_cases self d) as C. rewrite H in C.
  destruct C as (T & (j & Hf & Hj) & _).
  destruct d' as [f n]. cbn [ConfigHandler.feathers] in Hf. subst f.
  cfg_unfold. cbn [ConfigHandler.feathers]. rewrite Hj, T. reflexivity.
Qed.

Lemma get_config_idempotent_witness :
  ConfigHandler.get_config ConfigHandler.init
    (snd (ConfigHandler.get_config ConfigHandler.init empty_disk))
  = (Ok (ConfigHandler._create_default_config ConfigHandler.init),
     snd (ConfigHandler.get_config ConfigHandler.init empty_disk)).
Proof.
  apply (get_config_idempotent ConfigHandler.init empty_disk). reflexivity.
Defined.

(** What [set_config] does, case by case. *)
Lemma set_config_cases self key value d :
  match ConfigHandler.set_config self key value d with
  | (Ok _, d') =>
      exists kvs jv d1,
        ConfigHandler.get_config self d = (Ok (PDict (loads_items kvs)), d1) /\
        dumps value = Dumped jv /\
        ConfigHandler.feathers d' = Some (Decodes (JObj (obj_set kvs key jv)))
  | (Raise e, d') =>
      ConfigHandler.feathers d'
      = ConfigHandler.feathers (snd (ConfigHandler.get_config self d))
  end.
Proof.
  pose proof (get_config_cases self d) as C.
  unfold ConfigHandler.set_config, ConfigHandler.clogged.
  unfold ConfigHandler.cbind at 1.
  destruct (ConfigHandler.get_config self d) as [[c|e] d1].
  - destruct C as (T & (j & Hf & Hj) & _). subst c.
    destruct j as [| | | |xs|kvs]; cbn [loads];
      try (cfg_unfold; cbn; reflexivity).
    change (map (fun kv => (fst kv, loads (snd kv))) kvs) with (loads_items kvs).
    unfold ConfigHandler.setitem, ConfigHandler.cbind, ConfigHandler.cret,
      ConfigHandler._save_config.
    rewrite dumps_PDict, dumps_items_set.
    destruct (dumps value) as [jv|cls]; cbn.
    + exists kvs, jv, d1. repeat split.
    + reflexivity.
  - cbn. now destruct (is_Exception e).
Qed.

(** X11. Setting a key and reading the configuration back. When
    [set_config] returns, the configuration before it was a dictionary
    (the defaults, if there was no file or an empty one), and
    [get_config] now returns that dictionary with the key set to the value
    as JSON gives it back: the key has that value, every other key has the
    value it had, unknown keys included. *)
Theorem set_config_then_get self key value d d' :
  ConfigHandler.set_config self key value d = (Ok tt, d') ->
  exists c jv d1,
    ConfigHandler.get_config self d = (Ok (PDict c), d1) /\
    dumps value = Dumped jv /\
    ConfigHandler.get_config self d'
    = (Ok (PDict (dict_set c key (loads jv))), d') /\
    dict_get (dict_set c key (loads jv)) key = Some (loads jv) /\
    forall k, String.eqb key k = false ->
              dict_get (dict_set c key (loads jv)) k = dict_get c k.
Proof.
  intros H. pose proof (set_config_cases self key value d) as C.
  rewrite H in C. destruct C as (kvs & jv & d1 & Hg & Hv & Hf).
  exists (loads_items kvs), jv, d1.
  split; [exact Hg|]. split; [exact Hv|].
  split.
  { destruct d' as [f n]. cbn [ConfigHandler.feathers] in Hf. subst f.
    cfg_unfold. cbn [ConfigHandler.feathers loads].
    change (map (fun kv => (fst kv, loads (snd kv))) (obj_set kvs key jv))
      with (loads_items (obj_set kvs key jv)).
    rewrite loads_items_set.
    assert (truth (PDict (dict_set (loads_items kvs) key (loads jv))) = true) as ->.
    { cbn [truth]. destruct (loads_items kvs) as [|[k0 v0] rest]; cbn [dict_set].
      - reflexivity.
      - now destruct (String.eqb k0 key). }
    reflexivity. }
  split.
  - rewrite dict_get_set. now rewrite String.eqb_refl.
  - intros k Hk. rewrite dict_get_set. now rewrite Hk.
Qed.

Lemma set_config_then_get_witness :
  exists c jv d1,
    ConfigHandler.get_config ConfigHandler.init empty_disk = (Ok (PDict c), d1) /\
    dumps (PTuple [PInt 1; PInt 2]) = Dumped jv /\
    ConfigHandler.get_config ConfigHandler.init
      (snd (ConfigHandler.set_config ConfigHandler.init "test_key"
              (PTuple [PInt 1; PInt 2]) empty_disk))
    = (Ok (PDict (dict_set c "test_key" (loads jv))),
       snd (ConfigHandler.set_config ConfigHandler.init "test_key"
              (PTuple [PInt 1; PInt 2]) empty_disk)) /\
    dict_get (dict_set c "test_key" (loads jv)) "test_key" = Some (loads jv) /\
    forall k, String.eqb "test_key" k = false ->
              dict_get (dict_set c "test_key" (loads jv)) k = dict_get c k.
Proof.
  apply (set_config_then_get ConfigHandler.init "test_key"
           (PTuple [PInt 1; PInt 2]) empty_disk).
  reflexivity.
Defined.

(** X13. [reset_config] always returns, whatever the file holds, a text
    that is not JSON included; the file then holds the defaults, and
    [get_config] returns them without writing. *)
Theorem reset_config_repairs self d :
  exists d',
    ConfigHandler.reset_config self d = (Ok tt, d') /\
    ConfigHandler.feathers d' = Some (Decodes (default_document self)) /\
    ConfigHandler.get_config self d'
    = (Ok (ConfigHandler._create_default_config self), d').
Proof.
  destruct d as [f n]. eexists. split; [reflexivity|]. split; reflexivity.
Qed.

(** ** The commands of the CLI *)

(** [QueryManager()]: a manager with an empty context of its own. *)
Lemma manager_init w :
  exists qm w1,
    QueryManager.init w = (Ok qm, w1) /\
    context_now qm w1 = [] /\
    qna w1 = qna w /\ git_error w1 = git_error w /\ commits w1 = commits w.
Proof.
  unfold QueryManager.init. py_unfold.
  eexists. eexists. split; [reflexivity|].
  unfold context_now. cbn [QueryManager.context heap].
  rewrite lookup_insert_eq. repeat split.
Qed.

(** X14. The [analyze] command in single-query mode. It exits with
    status 0 exactly when a query is given (not the empty string), the
    history file is absent or holds a JSON array, and git works or no
    commit is asked for; otherwise with status 1. With a query given and
    the history file in order, the file gains exactly one entry, for that
    query and with an empty context, also when the commit fails and the
    status is 1; in every other case the file is left as it was. *)
Theorem analyze_single_query query save evs w out :
  let '(e, w', out') := Cli.analyze query save false evs w out in
  e = Cli.Exit (if given query && is_history (qna w)
                   && (negb save || git_works w) then 0 else 1) /\
  match entries_of (qna w) with
  | Some old =>
      if given query then
        exists t, entries_of (qna w') = Some (old ++ [t]) /\
                  json_get t "query" = Some (JStr (default "" query)) /\
                  json_get t "context" = Some (JObj [])
      else qna w' = qna w
  | None => qna w' = qna w
  end.
Proof.
  unfold Cli.analyze. destruct (given query) eqn:Hg; cbn [negb andb].
  2:{ cbn. split; [reflexivity|]. now destruct (entries_of (qna w)). }
  destruct (manager_init w) as (qm & w1 & Hinit & Hctx & Hq & Hge & Hcm).
  rewrite Hinit.
  pose proof (process_query_cases qm (default "" query) None w1) as C.
  rewrite snapshot_eq, Hctx in C. cbn [default dict_update fold_left] in C.
  rewrite Hq in C. unfold is_history, git_works.
  destruct (QueryManager.process_query qm (default "" query) None w1)
    as [[r|e] w2].
  - destruct C as (Hr & old & cj & H1 & H2 & Hw2).
    rewrite H1. inversion H2; subst cj.
    assert (Hentry : exists t,
      entries_of (qna w2) = Some (old ++ [t]) /\
      json_get t "query" = Some (JStr (default "" query)) /\
      json_get t "context" = Some (JObj [])).
    { exists (written r (JObj [])). rewrite Hw2, Hr. repeat split. }
    assert (Hge2 : git_error w2 = git_error w).
    { rewrite Hw2. cbn. exact Hge. }
    destruct save; cbn [negb orb andb].
    + unfold GitController.commit_changes, GitController.run_git_commit,
        Cli.analyze_except, Cli.analyze_failed.
      py_unfold. rewrite Hge2.
      destruct (git_error w); cbn; (split; [reflexivity|exact Hentry]).
    + split; [reflexivity|exact Hentry].
  - destruct C as ([H|(_ & c & H)] & He & lg & Hw2); [|discriminate H].
    rewrite H. unfold Cli.analyze_except, Cli.analyze_failed. rewrite He.
    cbn. split; [reflexivity|]. rewrite Hw2. cbn. exact Hq.
Qed.

(** ** A session on a file that is no history *)

(** A pass through the loop body on a file that is neither absent nor a
    JSON array, for any input but Ctrl-C. *)
Lemma iteration_on_bad_file self ev w :
  entries_of (qna w) = None ->
  ev <> ChatSession.CtrlC ->
  exists w',
    ChatSession.iteration self ev w = (Ok (ChatSession.Continue, self), w') /\
    qna w' = qna w.
Proof.
  intros Hbad Hev. destruct ev as [s|]; [|congruence].
  destruct (is_builtin s) eqn:Hb.
  - unfold is_builtin in Hb.
    destruct (String.eqb (lower s) "exit") eqn:Hexit.
    + destruct (iteration_exit self s w Hexit)
        as (ctl & w' & Hi & _ & _ & _ & [(-> & Hq)|(_ & old & js & Hold & _)]).
      * now exists w'.
      * congruence.
    + cbn [orb] in Hb.
      destruct (iteration_help_history self s w Hexit Hb) as (sh & Hi).
      exists (snd (console_print sh w)). split; [exact Hi|reflexivity].
  - rewrite (iteration_query _ _ _ Hb).
    pose proof (process_query_cases (ChatSession.query_manager self) s None w) as C.
    destruct (QueryManager.process_query (ChatSession.query_manager self) s None w)
      as [[r|e] w1] eqn:Hp.
    + destruct C as (_ & old & cj & Hold & _). congruence.
    + destruct (analyse_after_failure self s w e w1 Hp) as (w' & Ha & Hq & _).
      exists w'. split; [exact Ha|].
      destruct C as (_ & _ & lg & ->). exact Hq.
Qed.

(** X17. On a history file that is neither absent nor a JSON array
    (damaged, or holding an object), a session cannot be ended by [exit]
    and records nothing: whatever inputs it is given short of Ctrl-C, the
    loop goes on, the session's own list stays as it was and the file is
    never changed. *)
Theorem session_on_bad_file_goes_on evs : forall self w,
  entries_of (qna w) = None ->
  Forall (fun ev => ev <> ChatSession.CtrlC) evs ->
  exists w',
    ChatSession.loop self evs w = (Ok (ChatSession.Continue, self), w') /\
    qna w' = qna w.
Proof.
  induction evs as [|ev evs IH]; intros self w Hbad Hall.
  - now exists w.
  - inversion Hall as [|? ? Hev Hall']; subst.
    destruct (iteration_on_bad_file self ev w Hbad Hev) as (w1 & Hi & Hq).
    destruct (IH self w1) as (w' & Hl & Hq'); [now rewrite Hq|exact Hall'|].
    exists w'. split.
    + cbn [ChatSession.loop]. unfold bind at 1. now rewrite Hi.
    + now rewrite Hq'.
Qed.

Lemma session_on_bad_file_goes_on_witness :
  exists w',
    ChatSession.loop sample_session
      [ChatSession.Line "mean of column A"; ChatSession.Line "exit";
       ChatSession.Line "history"; ChatSession.Line "EXIT"]
      (with_qna (qna corrupt_world) session_world)
    = (Ok (ChatSession.Continue, sample_session), w') /\
    qna w' = qna (with_qna (qna corrupt_world) session_world).
Proof.
  apply (session_on_bad_file_goes_on
           [ChatSession.Line "mean of column A"; ChatSession.Line "exit";
            ChatSession.Line "history"; ChatSession.Line "EXIT"]
           sample_session (with_qna (qna corrupt_world) session_world)).
  - reflexivity.
  - repeat constructor; discriminate.
Defined.
